(** * DeepSeek-API-Server: the relay of [server.js]

    A shallow embedding of [server.js]: the two upstream clients
    ([clearChatContext], [sendMessage]) and the handler of
    [POST /api/v1/chat/completions].

    Modelling conventions.
    - A JavaScript string is a [string]; its characters are the code units
      U+0000 .. U+00FF.
    - A JavaScript value that can reach the program (a parsed JSON document,
      or [undefined]) is a [JSValue].
    - What belongs to the JavaScript runtime and not to [server.js]
      ([JSON.parse], the reading of a number literal as a double, the text of
      the runtime's own error messages) is the interface [Runtime]; the
      results below hold for every instance of it.
    - An awaited promise is the value it settles to; a promise that never
      settles is [None].
    - [console.log] / [console.error] and the two-second pause of
      [clearChatContext] leave no trace in what the program returns and are
      not modelled. *)

From Stdlib Require Import String Ascii List Bool Arith Lia.
Import ListNotations.
Open Scope string_scope.
Set Warnings "-register-all".

(* ================================================================== *)
(** ** JavaScript values *)

(** A number is kept as the literal it was written with; the runtime decides
    its truthiness and its decimal text (see [Runtime]).  The properties of a
    [JObject] are in insertion order. *)
Inductive JSValue : Type :=
| JUndefined
| JNull
| JBool (b : bool)
| JNumber (literal : string)
| JString (s : string)
| JArray (elements : list JSValue)
| JObject (properties : list (string * JSValue)).

(** An Error object, as far as the program looks at it: [error.message]. *)
Record JSError : Type := mkError { message : string }.

(** A computation that may throw. *)
Inductive Completion (A : Type) : Type :=
| Normal (a : A)
| Throw (e : JSError).
Arguments Normal {A} a.
Arguments Throw {A} e.

Definition bindC {A B} (c : Completion A) (k : A -> Completion B) : Completion B :=
  match c with
  | Normal a => k a
  | Throw e => Throw e
  end.

Notation "x <- c ;; k" := (bindC c (fun x => k))
  (at level 61, c at next level, right associativity).

(** What the JavaScript runtime contributes. *)
Class Runtime : Type := {
  (** [JSON.parse(text)]: the value, or the SyntaxError it throws. *)
  JSON_parse : string -> Completion JSValue;
  (** Is the double written as this literal neither [0] nor [NaN]? *)
  Number_truthy : string -> bool;
  (** [String(n)] for the double written as this literal. *)
  Number_toString : string -> string;
  (** The TypeError of reading a property of [undefined] or [null]. *)
  TypeError_nullish : JSValue -> string -> JSError;
  (** The TypeError of destructuring [undefined] or [null]. *)
  TypeError_destructure : JSValue -> JSError;
  (** The TypeError of converting to a primitive an object that has no
      callable [toString]/[valueOf]. *)
  TypeError_toPrimitive : JSError
}.

(* ================================================================== *)
(** ** String primitives used by [server.js] *)

Definition LF : ascii := ascii_of_nat 10.
Definition CR : ascii := ascii_of_nat 13.

(** WhiteSpace and LineTerminator code units below U+0100:
    TAB, LF, VT, FF, CR, SP, NBSP. *)
Definition isWhiteSpace (c : ascii) : bool :=
  let n := nat_of_ascii c in
  ((9 <=? n)%nat && (n <=? 13)%nat) || (n =? 32)%nat || (n =? 160)%nat.

(** [String.prototype.trim]. *)
Fixpoint trimStart (s : string) : string :=
  match s with
  | EmptyString => EmptyString
  | String c s' => if isWhiteSpace c then trimStart s' else s
  end.

Fixpoint trimEnd (s : string) : string :=
  match s with
  | EmptyString => EmptyString
  | String c s' =>
      match trimEnd s' with
      | EmptyString => if isWhiteSpace c then EmptyString else String c EmptyString
      | r => String c r
      end
  end.

Definition trim (s : string) : string := trimEnd (trimStart s).

(** [s.startsWith(p)]. *)
Fixpoint startsWith (s p : string) {struct p} : bool :=
  match p with
  | EmptyString => true
  | String b p' =>
      match s with
      | String a s' => Ascii.eqb a b && startsWith s' p'
      | EmptyString => false
      end
  end.

(** [s.substring(n)]: [s] without its first [n] characters. *)
Fixpoint substring_from (n : nat) (s : string) : string :=
  match n, s with
  | 0, _ => s
  | S n', String _ s' => substring_from n' s'
  | S _, EmptyString => EmptyString
  end.

(** [s.split(/\r?\n/)]: cut at every LF, and at every CR that an LF follows
    (the CR then belongs to the separator).  The result is never empty. *)
Fixpoint split_lines (s : string) : list string :=
  match s with
  | EmptyString => [EmptyString]
  | String c s' =>
      if Ascii.eqb c LF then EmptyString :: split_lines s'
      else if Ascii.eqb c CR && startsWith s' (String LF EmptyString)
           then split_lines s'
      else match split_lines s' with
           | l :: ls => String c l :: ls
           | [] => [String c EmptyString]
           end
  end.

(** [xs.join(sep)]. *)
Definition join (sep : string) (xs : list string) : string := String.concat sep xs.

(* ================================================================== *)
(** ** The operations of the language that [server.js] applies to values *)

Section Semantics.
Context {RT : Runtime}.

(** ToBoolean: the test of [if (v)], [!v], [a && b], [a || b]. *)
Definition ToBoolean (v : JSValue) : bool :=
  match v with
  | JUndefined | JNull => false
  | JBool b => b
  | JNumber n => Number_truthy n
  | JString s => negb (s =? "")
  | JArray _ | JObject _ => true
  end.

(** An own property of an object built by [JSON.parse]: when a name is
    written twice, the later value is the one kept. *)
Fixpoint getOwn (key : string) (props : list (string * JSValue)) : option JSValue :=
  match props with
  | [] => None
  | (k, v) :: rest =>
      match getOwn key rest with
      | Some v' => Some v'
      | None => if k =? key then Some v else None
      end
  end.

(** The property names that [server.js] reads. *)
Inductive Key : Type :=
| K_choices | K_0 | K_delta | K_content | K_model | K_request | K_message.

Definition keyName (k : Key) : string :=
  match k with
  | K_choices => "choices" | K_0 => "0" | K_delta => "delta"
  | K_content => "content" | K_model => "model" | K_request => "request"
  | K_message => "message"
  end.

(** [v.key] and [v[0]].  None of the names of [Key] is defined by a built-in
    prototype, so a value that has no own property of that name gives
    [undefined]; index [0] of an array is its first element and of a string
    its first character; reading from [undefined] or [null] throws. *)
Definition Get (v : JSValue) (k : Key) : Completion JSValue :=
  match v with
  | JUndefined | JNull => Throw (TypeError_nullish v (keyName k))
  | JObject props =>
      Normal (match getOwn (keyName k) props with Some x => x | None => JUndefined end)
  | JArray elems =>
      Normal (match k, elems with K_0, x :: _ => x | _, _ => JUndefined end)
  | JString s =>
      Normal (match k, s with
              | K_0, String c _ => JString (String c EmptyString)
              | _, _ => JUndefined
              end)
  | JBool _ | JNumber _ => Normal JUndefined
  end.

(** Does an object have an own property of this name? *)
Definition hasOwn (key : string) (props : list (string * JSValue)) : bool :=
  match getOwn key props with Some _ => true | None => false end.

(** [xs.join(",")] over texts that may have failed to be computed. *)
Fixpoint joinC (xs : list (Completion string)) : Completion string :=
  match xs with
  | [] => Normal ""
  | [x] => x
  | x :: rest => s <- x ;; r <- joinC rest ;; Normal (s ++ "," ++ r)
  end.

(** ToString of a value, as string concatenation applies it.  An array is
    joined with commas, [null] elements giving the empty text.  An object
    built by [JSON.parse] inherits [Object.prototype.toString] unless it has
    an own property named [toString], which, being data, cannot be called:
    the conversion then throws. *)
Fixpoint ToString (v : JSValue) : Completion string :=
  match v with
  | JUndefined => Normal "undefined"
  | JNull => Normal "null"
  | JBool true => Normal "true"
  | JBool false => Normal "false"
  | JNumber n => Normal (Number_toString n)
  | JString s => Normal s
  | JArray elems =>
      joinC (map (fun e => match e with
                           | JUndefined | JNull => Normal ""
                           | _ => ToString e
                           end) elems)
  | JObject props =>
      if hasOwn "toString" props then Throw TypeError_toPrimitive
      else Normal "[object Object]"
  end.

(** [acc += v] for a string [acc]. *)
Definition string_plus (acc : string) (v : JSValue) : Completion string :=
  s <- ToString v ;; Normal (acc ++ s).

End Semantics.

(* ================================================================== *)
(** ** The process environment and the upstream service *)

(** [process.env]: a variable is a string or is unset. *)
Record Env : Type := mkEnv { DEEPSEEK : option string }.

(** [`${v}`] for an environment variable. *)
Definition env_text (v : option string) : string :=
  match v with Some s => s | None => "undefined" end.

(** [!v] for an environment variable is false exactly when it is set to a
    non-empty string. *)
Definition env_truthy (v : option string) : bool :=
  match v with Some s => negb (s =? "") | None => false end.

(** One call [axios.post(url, data, { headers, responseType })]. *)
Record AxiosRequest : Type := mkRequest {
  url : string;
  data : JSValue;
  headers : list (string * string);
  responseType : option string
}.

(** What a readable stream emits; a [Data] event carries
    [chunk.toString('utf8')]. *)
Inductive StreamEvent : Type :=
| Data (chunk : string)
| End
| Error (err : JSError).

(** The upstream service seen through [axios.post]: a call either throws
    (transport failure, status outside 2xx) or yields [response.data], which
    is a parsed body, or a readable stream when [responseType] is
    ['stream']. *)
Record Upstream : Type := mkUpstream {
  post_json : AxiosRequest -> Completion JSValue;
  post_stream : AxiosRequest -> Completion (list StreamEvent)
}.

(** A result together with the calls made upstream to obtain it. *)
Definition Traced (A : Type) : Type := (A * list AxiosRequest)%type.

Definition axios_post_json (up : Upstream) (r : AxiosRequest)
  : Traced (Completion JSValue) := (post_json up r, [r]).

Definition axios_post_stream (up : Upstream) (r : AxiosRequest)
  : Traced (Completion (list StreamEvent)) := (post_stream up r, [r]).

Definition DEEPSEEK_API_URL : string := "https://chat.deepseek.com/api/v0/chat".
Definition DEEPSEEK_MODEL_CLASS : string := "deepseek_code".
Definition VALID_MODELS : list string := ["deepseek_code"; "deepseek_chat"].

Definition request_headers (env : Env) : list (string * string) :=
  [("Authorization", "Bearer " ++ env_text (DEEPSEEK env));
   ("Content-Type", "application/json")].

(* ================================================================== *)
(** ** [clearChatContext] *)

Definition clearPayload : JSValue :=
  JObject [("model_class", JString DEEPSEEK_MODEL_CLASS);
           ("append_welcome_message", JBool false)].

Definition clear_request (env : Env) : AxiosRequest :=
  mkRequest (DEEPSEEK_API_URL ++ "/clear_context") clearPayload
            (request_headers env) None.

(** The awaited result of [clearChatContext()]: it returns nothing, or
    rethrows what [axios.post] threw. *)
Definition clearChatContext (env : Env) (up : Upstream) : Traced (Completion unit) :=
  let (response, made) := axios_post_json up (clear_request env) in
  match response with
  | Normal _ => (Normal tt, made)
  | Throw error => (Throw error, made)
  end.

(* ================================================================== *)
(** ** [sendMessage] *)

Section SendMessage.
Context {RT : Runtime}.

(** [a || b]. *)
Definition js_or (a b : JSValue) : JSValue := if ToBoolean a then a else b.

Definition userPayload (message model : JSValue) : JSValue :=
  JObject [("message", message);
           ("stream", JBool true);
           ("model_preference", JNull);
           ("model_class", js_or model (JString DEEPSEEK_MODEL_CLASS));
           ("temperature", JNumber "1.0")].

Definition completions_request (env : Env) (message model : JSValue) : AxiosRequest :=
  mkRequest (DEEPSEEK_API_URL ++ "/completions") (userPayload message model)
            (request_headers env) (Some "stream").

(** The body of the [try] inside the loop over lines: the new value of
    [combinedResponse]. *)
Definition parse_and_accumulate (combinedResponse line : string) : Completion string :=
  chunkData <- JSON_parse (substring_from 6 (trim line)) ;;
  choices <- Get chunkData K_choices ;;
  if negb (ToBoolean choices) then Normal combinedResponse else
  choices0 <- Get choices K_0 ;;
  if negb (ToBoolean choices0) then Normal combinedResponse else
  delta <- Get choices0 K_delta ;;
  if negb (ToBoolean delta) then Normal combinedResponse else
  content <- Get delta K_content ;;
  if negb (ToBoolean content) then Normal combinedResponse else
  string_plus combinedResponse content.

(** One turn of [for (let line of lines)]; the [catch] only logs. *)
Definition line_step (combinedResponse line : string) : string :=
  if startsWith (trim line) "data: " then
    match parse_and_accumulate combinedResponse line with
    | Normal combinedResponse' => combinedResponse'
    | Throw _ => combinedResponse
    end
  else combinedResponse.

(** How a promise has settled. *)
Inductive Settlement : Type :=
| Resolved (value : string)
| Rejected (reason : JSError).

(** What the three listeners share: the variable [combinedResponse] and the
    promise, which is pending ([None]) or settled once and for all. *)
Record StreamState : Type := mkState {
  combinedResponse : string;
  promise : option Settlement
}.

Definition settle (st : StreamState) (o : Settlement) : StreamState :=
  match promise st with
  | Some _ => st
  | None => mkState (combinedResponse st) (Some o)
  end.

(** The listener of ['data']. *)
Definition on_data (st : StreamState) (chunk : string) : StreamState :=
  mkState (fold_left line_step (split_lines chunk) (combinedResponse st))
          (promise st).

(** The listeners of ['end'] and ['error']. *)
Definition on_end (st : StreamState) : StreamState :=
  settle st (Resolved (combinedResponse st)).

Definition on_error (st : StreamState) (err : JSError) : StreamState :=
  settle st (Rejected err).

Definition stream_step (st : StreamState) (ev : StreamEvent) : StreamState :=
  match ev with
  | Data chunk => on_data st chunk
  | End => on_end st
  | Error err => on_error st err
  end.

(** The promise built over the stream, once the stream has emitted all of
    [events]. *)
Definition drain (events : list StreamEvent) : option Settlement :=
  promise (fold_left stream_step events (mkState "" None)).

(** The awaited result of [sendMessage(message, model)]. *)
Definition sendMessage (env : Env) (up : Upstream) (message model : JSValue)
  : Traced (option Settlement) :=
  let (response, made) :=
    axios_post_stream up (completions_request env message model) in
  match response with
  | Normal events => (drain events, made)
  | Throw error => (Some (Rejected error), made)
  end.

End SendMessage.

(* ================================================================== *)
(** ** The handler of [POST /api/v1/chat/completions] *)

Section Handler.
Context {RT : Runtime}.

(** [res.status(code).json(body)]. *)
Record HttpResponse : Type := mkResponse {
  status : nat;
  body : JSValue
}.

Definition error_body (text : string) : JSValue := JObject [("error", JString text)].

(** What one request leaves behind: the response sent, if one was sent, and
    the calls made to the upstream service, in order. *)
Record Run : Type := mkRun {
  response : option HttpResponse;
  calls : list AxiosRequest
}.

(** [VALID_MODELS.includes(model)]: only a string can be found in a list of
    strings. *)
Definition includes (models : list string) (v : JSValue) : bool :=
  match v with
  | JString s => existsb (String.eqb s) models
  | _ => false
  end.

Definition missing_key_message : string :=
  "DeepSeek API key is not provided in environment variables.".
Definition missing_message_message : string := "Message is required.".
Definition invalid_model_message : string :=
  "Invalid model. Valid models are: " ++ join ", " VALID_MODELS.
Definition failure_message (error : JSError) : string :=
  "Failed to process the request. Details: " ++ message error.

(** [const { model, request } = req.body; const { message } = request || {};] *)
Definition destructure (req_body : JSValue) : Completion (JSValue * JSValue) :=
  match req_body with
  | JUndefined | JNull => Throw (TypeError_destructure req_body)
  | _ =>
      model <- Get req_body K_model ;;
      request <- Get req_body K_request ;;
      message <- Get (js_or request (JObject [])) K_message ;;
      Normal (model, message)
  end.

(** The outcome of the checks that precede the upstream calls. *)
Inductive Checked : Type :=
| Refused (r : HttpResponse)
| Accepted (message model : JSValue).

Definition check (env : Env) (req_body : JSValue) : Completion Checked :=
  if negb (env_truthy (DEEPSEEK env)) then
    Normal (Refused (mkResponse 500 (error_body missing_key_message)))
  else
    mm <- destructure req_body ;;
    let '(model, message) := mm in
    if negb (ToBoolean message) then
      Normal (Refused (mkResponse 400 (error_body missing_message_message)))
    else if ToBoolean model && negb (includes VALID_MODELS model) then
      Normal (Refused (mkResponse 400 (error_body invalid_model_message)))
    else Normal (Accepted message model).

(** The [catch] of the handler. *)
Definition caught (error : JSError) : HttpResponse :=
  mkResponse 500 (error_body (failure_message error)).

Definition handler (env : Env) (up : Upstream) (req_body : JSValue) : Run :=
  match check env req_body with
  | Throw error => mkRun (Some (caught error)) []
  | Normal (Refused r) => mkRun (Some r) []
  | Normal (Accepted message model) =>
      let (cleared, made1) := clearChatContext env up in
      match cleared with
      | Throw error => mkRun (Some (caught error)) made1
      | Normal _ =>
          let (sent, made2) := sendMessage env up message model in
          match sent with
          | None => mkRun None (made1 ++ made2)
          | Some (Rejected error) => mkRun (Some (caught error)) (made1 ++ made2)
          | Some (Resolved userResponse) =>
              mkRun (Some (mkResponse 200
                             (JObject [("response", JString ("" ++ userResponse))])))
                    (made1 ++ made2)
          end
      end
  end.

End Handler.

(* ================================================================== *)
(** ** A runtime to execute the model with

    [Reference.runtime] reads JSON texts by the grammar of ECMA-404 over the
    modelled alphabet: objects, arrays, strings with their escapes (a
    [\uXXXX] escape must name a code unit below U+0100), the three literals,
    and numbers, kept as written.  Its reading of a number is exact for the
    integers below 2^53 written without fraction or exponent; none of the
    streams of this file holds a number. *)

Module Reference.

Open Scope char_scope.

(** The quotation mark. *)
Definition DQ : ascii := ascii_of_nat 34.

Definition isJsonSpace (c : ascii) : bool :=
  let n := nat_of_ascii c in
  (n =? 32)%nat || (n =? 9)%nat || (n =? 10)%nat || (n =? 13)%nat.

Fixpoint skip_space (s : string) : string :=
  match s with
  | String c s' => if isJsonSpace c then skip_space s' else s
  | EmptyString => s
  end.

Definition isDigit (c : ascii) : bool :=
  let n := nat_of_ascii c in (48 <=? n)%nat && (n <=? 57)%nat.

Definition hexDigit (c : ascii) : option nat :=
  let n := nat_of_ascii c in
  if (48 <=? n)%nat && (n <=? 57)%nat then Some (n - 48)
  else if (65 <=? n)%nat && (n <=? 70)%nat then Some (n - 55)
  else if (97 <=? n)%nat && (n <=? 102)%nat then Some (n - 87)
  else None.

(** The character an escape letter stands for. *)
Definition unescape (c : ascii) : option ascii :=
  if Ascii.eqb c DQ then Some DQ
  else if Ascii.eqb c "\" then Some "\"
  else if Ascii.eqb c "/" then Some "/"
  else if Ascii.eqb c "b" then Some (ascii_of_nat 8)
  else if Ascii.eqb c "f" then Some (ascii_of_nat 12)
  else if Ascii.eqb c "n" then Some (ascii_of_nat 10)
  else if Ascii.eqb c "r" then Some (ascii_of_nat 13)
  else if Ascii.eqb c "t" then Some (ascii_of_nat 9)
  else None.

Definition consChar (c : ascii) (r : option (string * string)) : option (string * string) :=
  match r with
  | Some (body, rest) => Some (String c body, rest)
  | None => None
  end.

(** The characters of a string literal after its opening quote, and what
    follows the closing quote. *)
Fixpoint parse_chars (s : string) : option (string * string) :=
  match s with
  | EmptyString => None
  | String c s' =>
      if Ascii.eqb c DQ then Some (EmptyString, s')
      else if Ascii.eqb c "\" then
        match s' with
        | EmptyString => None
        | String e s'' =>
            match unescape e with
            | Some c' => consChar c' (parse_chars s'')
            | None =>
                if Ascii.eqb e "u" then
                  match s'' with
                  | String h1 (String h2 (String h3 (String h4 r))) =>
                      match hexDigit h1, hexDigit h2, hexDigit h3, hexDigit h4 with
                      | Some 0, Some 0, Some d3, Some d4 =>
                          consChar (ascii_of_nat (16 * d3 + d4)) (parse_chars r)
                      | _, _, _, _ => None
                      end
                  | _ => None
                  end
                else None
            end
        end
      else if (nat_of_ascii c <? 32)%nat then None
      else consChar c (parse_chars s')
  end.

Fixpoint take_digits (s : string) : string * string :=
  match s with
  | String c s' =>
      if isDigit c then let (d, r) := take_digits s' in (String c d, r)
      else (EmptyString, s)
  | EmptyString => (EmptyString, s)
  end.

(** A number literal at the head of [s], and what follows it. *)
Definition parse_number (s : string) : option (string * string) :=
  let (sign, s1) := match s with
                    | String "-" r => ("-"%string, r)
                    | _ => (EmptyString, s)
                    end in
  let (int, s2) := take_digits s1 in
  match int with
  | EmptyString => None
  | String "0" (String _ _) => None
  | _ =>
      let frac := match s2 with
                  | String "." r =>
                      let (d, r') := take_digits r in
                      match d with
                      | EmptyString => None
                      | _ => Some (String "." d, r')
                      end
                  | _ => Some (EmptyString, s2)
                  end in
      match frac with
      | None => None
      | Some (f, s3) =>
          let exp := match s3 with
                     | String e r =>
                         if Ascii.eqb e "e" || Ascii.eqb e "E" then
                           let (sg, r1) := match r with
                                           | String "+" r1 => ("+"%string, r1)
                                           | String "-" r1 => ("-"%string, r1)
                                           | _ => (EmptyString, r)
                                           end in
                           let (d, r2) := take_digits r1 in
                           match d with
                           | EmptyString => None
                           | _ => Some ((String e sg ++ d)%string, r2)
                           end
                         else Some (EmptyString, s3)
                     | EmptyString => Some (EmptyString, s3)
                     end in
          match exp with
          | None => None
          | Some (x, s4) => Some ((sign ++ int ++ f ++ x)%string, s4)
          end
      end
  end.

Close Scope char_scope.

(** A JSON value at the head of [s] (after white space), and what follows
    it.  [fuel] bounds the number of nested calls. *)
Fixpoint parse_value (fuel : nat) (s : string) : option (JSValue * string) :=
  match fuel with
  | 0 => None
  | S fuel' =>
      match skip_space s with
      | EmptyString => None
      | String c r0 =>
      if Ascii.eqb c DQ then
        match parse_chars r0 with
        | Some (str, r') => Some (JString str, r')
        | None => None
        end
      else
      match String c r0 with
      | String "{" r =>
          match skip_space r with
          | String "}" r' => Some (JObject [], r')
          | _ =>
              match parse_members fuel' r with
              | Some (ms, r') => Some (JObject ms, r')
              | None => None
              end
          end
      | String "[" r =>
          match skip_space r with
          | String "]" r' => Some (JArray [], r')
          | _ =>
              match parse_elements fuel' r with
              | Some (es, r') => Some (JArray es, r')
              | None => None
              end
          end
      | String "t" (String "r" (String "u" (String "e" r))) => Some (JBool true, r)
      | String "f" (String "a" (String "l" (String "s" (String "e" r)))) =>
          Some (JBool false, r)
      | String "n" (String "u" (String "l" (String "l" r))) => Some (JNull, r)
      | t =>
          match parse_number t with
          | Some (n, r) => Some (JNumber n, r)
          | None => None
          end
      end
      end
  end

(** The elements of an array up to and including its closing bracket. *)
with parse_elements (fuel : nat) (s : string) : option (list JSValue * string) :=
  match fuel with
  | 0 => None
  | S fuel' =>
      match parse_value fuel' s with
      | Some (v, r) =>
          match skip_space r with
          | String "]" r' => Some ([v], r')
          | String "," r' =>
              match parse_elements fuel' r' with
              | Some (vs, r'') => Some (v :: vs, r'')
              | None => None
              end
          | _ => None
          end
      | None => None
      end
  end

(** The members of an object up to and including its closing brace. *)
with parse_members (fuel : nat) (s : string)
  : option (list (string * JSValue) * string) :=
  match fuel with
  | 0 => None
  | S fuel' =>
      match skip_space s with
      | String c r =>
          if negb (Ascii.eqb c DQ) then None else
          match parse_chars r with
          | Some (name, r1) =>
              match skip_space r1 with
              | String ":" r2 =>
                  match parse_value fuel' r2 with
                  | Some (v, r3) =>
                      match skip_space r3 with
                      | String "}" r4 => Some ([(name, v)], r4)
                      | String "," r4 =>
                          match parse_members fuel' r4 with
                          | Some (ms, r5) => Some ((name, v) :: ms, r5)
                          | None => None
                          end
                      | _ => None
                      end
                  | None => None
                  end
              | _ => None
              end
          | None => None
          end
      | _ => None
      end
  end.

Definition syntaxError : JSError := mkError "Unexpected token in JSON".

(** A whole text is one value between optional white space. *)
Definition parse (text : string) : Completion JSValue :=
  match parse_value (2 * String.length text + 2) text with
  | Some (v, rest) =>
      match skip_space rest with
      | EmptyString => Normal v
      | _ => Throw syntaxError
      end
  | None => Throw syntaxError
  end.

(** A number is zero when its digits before any exponent are all zero. *)
Fixpoint mantissa_nonzero (lit : string) : bool :=
  match lit with
  | EmptyString => false
  | String c r =>
      if Ascii.eqb c "e" || Ascii.eqb c "E" then false
      else (isDigit c && negb (Ascii.eqb c "0")) || mantissa_nonzero r
  end.

#[export] Instance runtime : Runtime := {|
  JSON_parse := parse;
  Number_truthy := mantissa_nonzero;
  Number_toString := fun lit => if mantissa_nonzero lit then lit else "0";
  TypeError_nullish := fun v k =>
    mkError ("Cannot read properties of " ++
             match v with JNull => "null" | _ => "undefined" end ++
             " (reading '" ++ k ++ "')");
  TypeError_destructure := fun v =>
    mkError ("Cannot destructure property 'model' of 'req.body' as it is " ++
             match v with JNull => "null" | _ => "undefined" end ++ ".");
  TypeError_toPrimitive := mkError "Cannot convert object to primitive value"
|}.

End Reference.

(* ================================================================== *)
(** ** Concrete streams *)

(** A text written with apostrophes where the wire has quotation marks. *)
Fixpoint wire (s : string) : string :=
  match s with
  | EmptyString => EmptyString
  | String c s' =>
      String (if Ascii.eqb c (ascii_of_nat 39) then Reference.DQ else c) (wire s')
  end.

(** A line break. *)
Definition NL : string := String LF EmptyString.
Definition CRNL : string := String CR (String LF EmptyString).

(** The two events of the example of the specification. *)
Definition line_Hel : string := wire "data: {'choices':[{'delta':{'content':'Hel'}}]}".
Definition line_lo : string := wire "data: {'choices':[{'delta':{'content':'lo'}}]}".
Definition line_broken : string := wire "data: {'choices':[{'delta':{'con".
Definition line_rest : string := wire "tent':'Hel'}}]}".
Definition line_garbage : string := "data: {oops".
Definition line_true : string := wire "data: {'choices':[{'delta':{'content':true}}]}".

(** An upstream whose context reset succeeds and whose completion streams
    [events]. *)
Definition streaming (events : list StreamEvent) : Upstream :=
  mkUpstream (fun _ => Normal (JObject [])) (fun _ => Normal events).

(** An upstream whose context reset is refused. *)
Definition refusing (e : JSError) : Upstream :=
  mkUpstream (fun _ => Throw e) (fun _ => Normal [End]).

(** A request body [{ model, request: { message } }]. *)
Definition chat_body (model message : JSValue) : JSValue :=
  JObject [("model", model); ("request", JObject [("message", message)])].

Definition env_with_key : Env := mkEnv (Some "secret").
Definition env_without_key : Env := mkEnv None.

(* ================================================================== *)
(** ** The vocabulary of the specification *)

(** Concatenation of texts, in order. *)
Definition concat_all (xs : list string) : string := fold_right append EmptyString xs.

(** A line break of the wire: LF, or CR LF. *)
Inductive Break : Type := BreakLF | BreakCRLF.

Definition break_text (b : Break) : string :=
  match b with BreakLF => NL | BreakCRLF => CRNL end.

(** A chunk that contains only whole lines: lines each ended by a line
    break, then a last line that no break ends (empty when the chunk ends
    with a line break). *)
Record Lines : Type := mkLines {
  ended : list (string * Break);
  last_line : string
}.

Definition chunk_text (c : Lines) : string :=
  fold_right (fun lb rest => fst lb ++ break_text (snd lb) ++ rest)
             (last_line c) (ended c).

Definition chunk_lines (c : Lines) : list string :=
  map fst (ended c) ++ [last_line c].

(** A line holds no CR and no LF. *)
Fixpoint unbroken (s : string) : bool :=
  match s with
  | EmptyString => true
  | String c s' => negb (Ascii.eqb c LF) && negb (Ascii.eqb c CR) && unbroken s'
  end.

Definition whole (c : Lines) : bool := forallb unbroken (chunk_lines c).

(** The stream that delivers these chunks and then ends. *)
Definition stream_of (chunks : list Lines) : list StreamEvent :=
  map (fun c => Data (chunk_text c)) chunks ++ [End].

(** A text of white space only. *)
Fixpoint all_space (s : string) : bool :=
  match s with
  | EmptyString => true
  | String c s' => isWhiteSpace c && all_space s'
  end.

(** A text without CR. *)
Fixpoint no_CR (s : string) : bool :=
  match s with
  | EmptyString => true
  | String c s' => negb (Ascii.eqb c CR) && no_CR s'
  end.

(** The chunk ends with a line break. *)
Definition ends_with_break (c : Lines) : bool := last_line c =? EmptyString.

Section Vocabulary.
Context {RT : Runtime}.

(** [v.key], or [undefined] where there is nothing to read from. *)
Definition child (k : Key) (v : JSValue) : JSValue :=
  match Get v k with
  | Normal x => x
  | Throw _ => JUndefined
  end.

(** [choices[0].delta.content] of an event. *)
Definition delta_content (event : JSValue) : JSValue :=
  child K_content (child K_delta (child K_0 (child K_choices event))).

(** What follows the prefix [data: ] in a line that has it. *)
Definition data_payload (line : string) : option string :=
  if startsWith (trim line) "data: " then Some (substring_from 6 (trim line))
  else None.

(** The text of a content: a string is its own text, [undefined] and the
    other falsy values have none, and any other value has the text that
    string concatenation gives it, if it has one. *)
Definition content_text (content : JSValue) : string :=
  match content with
  | JString s => s
  | _ => if ToBoolean content
         then match ToString content with Normal s => s | Throw _ => EmptyString end
         else EmptyString
  end.

(** The delta a line carries. *)
Definition line_delta (line : string) : string :=
  match data_payload line with
  | Some payload =>
      match JSON_parse payload with
      | Normal event => content_text (delta_content event)
      | Throw _ => EmptyString
      end
  | None => EmptyString
  end.

(** The [choices[0].delta.content] string found in a line prefixed
    [data: ]: the content when it is a string, nothing otherwise. *)
Definition line_string (line : string) : string :=
  match data_payload line with
  | Some payload =>
      match JSON_parse payload with
      | Normal event =>
          match delta_content event with
          | JString s => s
          | _ => EmptyString
          end
      | Throw _ => EmptyString
      end
  | None => EmptyString
  end.

(** Every truthy content that the line carries is a string. *)
Definition content_is_text (line : string) : Prop :=
  forall payload event,
    data_payload line = Some payload ->
    JSON_parse payload = Normal event ->
    ToBoolean (delta_content event) = true ->
    exists s, delta_content event = JString s.

(** The deltas of the lines of a chunk taken on its own. *)
Definition chunk_delta (chunk : string) : string :=
  concat_all (map line_delta (split_lines chunk)).


(** [undefined] or [null]. *)
Definition nullish (v : JSValue) : bool :=
  match v with JUndefined | JNull => true | _ => false end.

Definition is_object (v : JSValue) : bool :=
  match v with JObject _ => true | _ => false end.

(** The fields of a request body. *)
Definition body_model (req_body : JSValue) : JSValue := child K_model req_body.
Definition body_request (req_body : JSValue) : JSValue := child K_request req_body.
Definition request_message (req_body : JSValue) : JSValue :=
  child K_message (body_request req_body).

(** A request passes validation: the credential is set, the message is not
    empty, and the model, if given, is one of [VALID_MODELS]. *)
Definition passes_validation (env : Env) (req_body : JSValue) : bool :=
  env_truthy (DEEPSEEK env)
  && ToBoolean (request_message req_body)
  && (negb (ToBoolean (body_model req_body))
      || includes VALID_MODELS (body_model req_body)).

(** A named field of a payload. *)
Definition payload_field (name : string) (payload : JSValue) : option JSValue :=
  match payload with
  | JObject props => getOwn name props
  | _ => None
  end.

(** The responses of the handler. *)
Definition respond_error (code : nat) (text : string) : HttpResponse :=
  mkResponse code (error_body text).

Definition respond_ok (text : string) : HttpResponse :=
  mkResponse 200 (JObject [("response", JString text)]).

End Vocabulary.

(* ================================================================== *)
(** ** Texts and lines *)

Lemma append_empty_r (s : string) : s ++ EmptyString = s.
Proof. induction s as [|c s IH]; simpl; [reflexivity | now rewrite IH]. Qed.

Lemma append_assoc3 (a b c : string) : (a ++ b) ++ c = a ++ (b ++ c).
Proof. induction a as [|x a IH]; simpl; [reflexivity | now rewrite IH]. Qed.

Lemma concat_all_app (xs ys : list string) :
  concat_all (xs ++ ys) = concat_all xs ++ concat_all ys.
Proof.
  induction xs as [|x xs IH]; simpl.
  - reflexivity.
  - now rewrite IH, append_assoc3.
Qed.

Lemma split_lines_unbroken (l : string) :
  unbroken l = true -> split_lines l = [l].
Proof.
  induction l as [|c l IH]; simpl; intro H.
  - reflexivity.
  - apply andb_prop in H as [H Hl]. apply andb_prop in H as [Hlf Hcr].
    apply negb_true_iff in Hlf, Hcr. rewrite Hlf, Hcr. simpl.
    now rewrite (IH Hl).
Qed.

(** Cutting a text at the first line break gives the line before it. *)
Lemma split_lines_break (l : string) (b : Break) (rest : string) :
  unbroken l = true ->
  split_lines (l ++ break_text b ++ rest) = l :: split_lines rest.
Proof.
  induction l as [|c l IH]; intro H.
  - destruct b; reflexivity.
  - simpl in H. apply andb_prop in H as [H Hl]. apply andb_prop in H as [Hlf Hcr].
    apply negb_true_iff in Hlf, Hcr.
    change ((String c l ++ break_text b ++ rest))
      with (String c (l ++ break_text b ++ rest)).
    cbn [split_lines]. rewrite Hlf, Hcr. cbn [andb].
    now rewrite (IH Hl).
Qed.

(** A chunk of whole lines splits into exactly those lines. *)
Lemma split_lines_chunk (c : Lines) :
  whole c = true -> split_lines (chunk_text c) = chunk_lines c.
Proof.
  destruct c as [ls lst]. unfold whole, chunk_text, chunk_lines. cbn [ended last_line].
  induction ls as [|[l b] ls IH]; cbn [map fold_right app fst snd forallb]; intro H.
  - apply andb_prop in H as [H _]. now apply split_lines_unbroken.
  - apply andb_prop in H as [Hl H].
    rewrite (split_lines_break _ _ _ Hl). now rewrite (IH H).
Qed.

(* ================================================================== *)
(** ** The loop over lines adds the delta of each line *)

Section Accumulation.
Context {RT : Runtime}.

Lemma child_of_falsy (v : JSValue) (k : Key) :
  ToBoolean v = false -> child k v = JUndefined.
Proof.
  intros Hv. unfold child.
  destruct v as [| |b|n|s|es|ps]; cbn in *; try reflexivity; try discriminate.
  destruct s; [|discriminate]. now destruct k.
Qed.

(** A body from which something truthy can be read is a body. *)
Lemma child_truthy_not_nullish (v : JSValue) (k : Key) :
  ToBoolean (child k v) = true -> nullish v = false.
Proof. destruct v; cbn; congruence. Qed.

Lemma Get_child (v : JSValue) (k : Key) :
  nullish v = false -> Get v k = Normal (child k v).
Proof. unfold child. destruct v; cbn; try discriminate; reflexivity. Qed.

Lemma truthy_not_nullish (v : JSValue) : ToBoolean v = true -> nullish v = false.
Proof. destruct v; cbn; congruence. Qed.

Lemma content_text_falsy (v : JSValue) : ToBoolean v = false -> content_text v = EmptyString.
Proof.
  intro H. destruct v as [| |b|n|s|es|ps]; cbn in *; try reflexivity;
    try (rewrite H; reflexivity); try discriminate.
  destruct s; [reflexivity | discriminate].
Qed.

(** What the [try] block computes from a parsed event. *)
Lemma parse_and_accumulate_event (acc line : string) (event : JSValue) :
  JSON_parse (substring_from 6 (trim line)) = Normal event ->
  match parse_and_accumulate acc line with
  | Normal acc' => acc'
  | Throw _ => acc
  end = acc ++ content_text (delta_content event).
Proof.
  intro Hp. unfold parse_and_accumulate, delta_content. rewrite Hp. cbn [bindC].
  destruct (nullish event) eqn:Hn.
  { destruct event; try discriminate; cbn; now rewrite append_empty_r. }
  rewrite (Get_child _ K_choices Hn). cbn [bindC].
  set (choices := child K_choices event).
  destruct (ToBoolean choices) eqn:Hc; cbn [negb].
  2:{ rewrite (child_of_falsy choices K_0 Hc).
      cbn. now rewrite append_empty_r. }
  rewrite (Get_child _ K_0 (truthy_not_nullish _ Hc)). cbn [bindC].
  set (choices0 := child K_0 choices).
  destruct (ToBoolean choices0) eqn:Hc0; cbn [negb].
  2:{ rewrite (child_of_falsy choices0 K_delta Hc0).
      cbn. now rewrite append_empty_r. }
  rewrite (Get_child _ K_delta (truthy_not_nullish _ Hc0)). cbn [bindC].
  set (delta := child K_delta choices0).
  destruct (ToBoolean delta) eqn:Hd; cbn [negb].
  2:{ rewrite (child_of_falsy delta K_content Hd).
      cbn. now rewrite append_empty_r. }
  rewrite (Get_child _ K_content (truthy_not_nullish _ Hd)). cbn [bindC].
  set (content := child K_content delta).
  destruct (ToBoolean content) eqn:Hct; cbn [negb].
  2:{ rewrite (content_text_falsy _ Hct). now rewrite append_empty_r. }
  unfold string_plus, content_text. rewrite Hct.
  destruct content; cbn [ToString bindC]; try reflexivity;
    try (destruct (ToString _); cbn [bindC]; now rewrite ?append_empty_r).
  - destruct b; reflexivity.
  - destruct (joinC _); cbn [bindC]; now rewrite ?append_empty_r.
  - destruct (hasOwn _ _); cbn [bindC]; now rewrite ?append_empty_r.
Qed.

(** One turn of the loop appends the delta of the line. *)
Lemma line_step_delta (acc line : string) :
  line_step acc line = acc ++ line_delta line.
Proof.
  unfold line_step, line_delta, data_payload.
  destruct (startsWith (trim line) "data: ").
  - destruct (JSON_parse (substring_from 6 (trim line))) as [event|e] eqn:Hp.
    + now apply parse_and_accumulate_event.
    + unfold parse_and_accumulate. rewrite Hp. cbn. now rewrite append_empty_r.
  - now rewrite append_empty_r.
Qed.

Lemma fold_line_step (lines : list string) (acc : string) :
  fold_left line_step lines acc = acc ++ concat_all (map line_delta lines).
Proof.
  revert acc. induction lines as [|l lines IH]; intro acc; cbn.
  - now rewrite append_empty_r.
  - now rewrite IH, line_step_delta, append_assoc3.
Qed.

(** The listener of ['data'] appends the delta of its chunk, whatever came
    before, and leaves the promise as it is. *)
Lemma on_data_delta (st : StreamState) (chunk : string) :
  on_data st chunk = mkState (combinedResponse st ++ chunk_delta chunk) (promise st).
Proof. unfold on_data, chunk_delta. now rewrite fold_line_step. Qed.

Lemma fold_data (chunks : list string) (st : StreamState) :
  fold_left stream_step (map Data chunks) st
  = mkState (combinedResponse st ++ concat_all (map chunk_delta chunks)) (promise st).
Proof.
  revert st. induction chunks as [|c chunks IH]; intro st; cbn [map fold_left].
  - cbn. rewrite append_empty_r. now destruct st.
  - rewrite IH. cbn [stream_step]. rewrite on_data_delta. cbn.
    now rewrite append_assoc3.
Qed.

(** Once settled, a promise keeps its value. *)
Lemma settled_forever (events : list StreamEvent) (st : StreamState) (o : Settlement) :
  promise st = Some o -> promise (fold_left stream_step events st) = Some o.
Proof.
  revert st. induction events as [|ev events IH]; intros st H; cbn [fold_left].
  - exact H.
  - apply IH. destruct ev as [chunk| |err]; cbn [stream_step].
    + exact H.
    + unfold on_end, settle. now rewrite H.
    + unfold on_error, settle. now rewrite H.
Qed.

(** A stream that ends resolves with the deltas of the chunks before its
    end. *)
Lemma drain_end (chunks : list string) (rest : list StreamEvent) :
  drain (map Data chunks ++ End :: rest)
  = Some (Resolved (concat_all (map chunk_delta chunks))).
Proof.
  unfold drain. rewrite fold_left_app, fold_data. cbn [fold_left stream_step].
  apply settled_forever. reflexivity.
Qed.

(** A stream that fails rejects with its error. *)
Lemma drain_error (chunks : list string) (e : JSError) (rest : list StreamEvent) :
  drain (map Data chunks ++ Error e :: rest) = Some (Rejected e).
Proof.
  unfold drain. rewrite fold_left_app, fold_data. cbn [fold_left stream_step].
  apply settled_forever. reflexivity.
Qed.

(** A stream that neither ends nor fails leaves the promise pending. *)
Lemma drain_pending (chunks : list string) : drain (map Data chunks) = None.
Proof. unfold drain. now rewrite fold_data. Qed.

End Accumulation.

(* ================================================================== *)
(** ** The streaming-completion client *)

Section Streaming.
Context {RT : Runtime}.

Lemma sendMessage_stream (env : Env) (up : Upstream) (message model : JSValue)
      (events : list StreamEvent) :
  post_stream up (completions_request env message model) = Normal events ->
  sendMessage env up message model
  = (drain events, [completions_request env message model]).
Proof. intro H. unfold sendMessage, axios_post_stream. now rewrite H. Qed.

(** The deltas of chunks of whole lines are the deltas of their lines. *)
Lemma whole_chunks_delta (chunks : list Lines) :
  forallb whole chunks = true ->
  concat_all (map chunk_delta (map chunk_text chunks))
  = concat_all (map line_delta (flat_map chunk_lines chunks)).
Proof.
  induction chunks as [|c chunks IH]; cbn [map flat_map forallb concat_all fold_right]; intro H.
  - reflexivity.
  - apply andb_prop in H as [Hc H].
    rewrite map_app, concat_all_app. fold (concat_all (map chunk_delta (map chunk_text chunks))).
    rewrite (IH H). unfold chunk_delta at 1. now rewrite (split_lines_chunk c Hc).
Qed.

Lemma drain_whole_chunks (chunks : list Lines) :
  forallb whole chunks = true ->
  drain (stream_of chunks)
  = Some (Resolved (concat_all (map line_delta (flat_map chunk_lines chunks)))).
Proof.
  intro H. unfold stream_of. rewrite <- (map_map chunk_text Data).
  rewrite drain_end. now rewrite (whole_chunks_delta chunks H).
Qed.

Lemma line_delta_string (line payload : string) (event : JSValue) (s : string) :
  data_payload line = Some payload ->
  JSON_parse payload = Normal event ->
  delta_content event = JString s ->
  line_delta line = s.
Proof. intros Hd Hp Hc. unfold line_delta. now rewrite Hd, Hp, Hc. Qed.


(** On a line whose truthy content is a string, the delta is that string. *)
Lemma line_delta_text (line : string) :
  content_is_text line -> line_delta line = line_string line.
Proof.
  intro H. unfold line_delta, line_string.
  destruct (data_payload line) as [payload|] eqn:Hd; [|reflexivity].
  destruct (JSON_parse payload) as [event|e] eqn:Hp; [|reflexivity].
  destruct (ToBoolean (delta_content event)) eqn:Ht.
  - destruct (H payload event Hd Hp Ht) as (s & ->). reflexivity.
  - rewrite (content_text_falsy _ Ht).
    destruct (delta_content event) as [| |b|n|s|es|ps]; try reflexivity.
    cbn in Ht. destruct s; [reflexivity | discriminate Ht].
Qed.

End Streaming.

(** C1, as first stated, fails: a truthy content that is not a string is
    added as well, converted to text.  The stream that emits the content
    [true] and then the delta [lo] resolves to [truelo], while the content
    strings found in its lines make [lo]. *)
Lemma boolean_content_is_added_as_text :
  forallb whole [mkLines [] line_true; mkLines [] line_lo] = true
  /\ fst (sendMessage (RT := Reference.runtime) env_with_key
            (streaming (stream_of [mkLines [] line_true; mkLines [] line_lo]))
            (JString "hi") JUndefined)
     = Some (Resolved "truelo")
  /\ concat_all (map (line_string (RT := Reference.runtime))
                     (flat_map chunk_lines
                        [mkLines [] line_true; mkLines [] line_lo]))
     = "lo".
Proof. repeat split. Qed.

(** C1, amended: over chunks that each contain only whole lines,
    [sendMessage] resolves to the concatenation, in arrival order, of what
    each line contributes, which for a line prefixed [data: ] is its
    [choices[0].delta.content] when that is a string (a truthy content of
    another kind contributes its conversion to text); so when every truthy
    content of the stream is a string, the result is the concatenation of
    the content strings; the stream that emits the delta [Hel], then the
    delta [lo], then ends, gives [Hello]. *)
Theorem sendMessage_concatenates_deltas :
  (forall (RT : Runtime) (env : Env) (up : Upstream) (message model : JSValue)
          (chunks : list Lines),
      forallb whole chunks = true ->
      post_stream up (completions_request env message model)
      = Normal (stream_of chunks) ->
      fst (sendMessage env up message model)
      = Some (Resolved (concat_all (map line_delta (flat_map chunk_lines chunks)))))
  /\ (forall (RT : Runtime) (line payload : string) (event : JSValue) (s : string),
      data_payload line = Some payload ->
      JSON_parse payload = Normal event ->
      delta_content event = JString s ->
      line_delta line = s)
  /\ (forall (RT : Runtime) (env : Env) (up : Upstream) (message model : JSValue)
          (chunks : list Lines),
      forallb whole chunks = true ->
      post_stream up (completions_request env message model)
      = Normal (stream_of chunks) ->
      (forall line, In line (flat_map chunk_lines chunks) -> content_is_text line) ->
      fst (sendMessage env up message model)
      = Some (Resolved (concat_all (map line_string (flat_map chunk_lines chunks)))))
  /\ (forall (env : Env) (message model : JSValue),
      fst (sendMessage (RT := Reference.runtime) env
             (streaming [Data line_Hel; Data line_lo; End]) message model)
      = Some (Resolved "Hello")).
Proof.
  split; [|split; [|split]].
  - intros RT env up message model chunks Hw Hs.
    rewrite (sendMessage_stream _ _ _ _ _ Hs). cbn [fst].
    now apply drain_whole_chunks.
  - intros RT. apply line_delta_string.
  - intros RT env up message model chunks Hw Hs Htext.
    rewrite (sendMessage_stream _ _ _ _ _ Hs). cbn [fst].
    rewrite (drain_whole_chunks chunks Hw). do 3 f_equal.
    apply map_ext_in. intros line Hin. apply line_delta_text. now apply Htext.
  - intros env message model. reflexivity.
Qed.

Lemma sendMessage_concatenates_deltas_witness :
  fst (sendMessage (RT := Reference.runtime) env_with_key
         (streaming (stream_of [mkLines [(line_Hel, BreakLF)] EmptyString;
                                mkLines [(line_lo, BreakCRLF)] EmptyString]))
         (JString "hi") JUndefined)
  = Some (Resolved "Hello").
Proof.
  rewrite (proj1 sendMessage_concatenates_deltas Reference.runtime env_with_key
             (streaming (stream_of [mkLines [(line_Hel, BreakLF)] EmptyString;
                                    mkLines [(line_lo, BreakCRLF)] EmptyString]))
             (JString "hi") JUndefined
             [mkLines [(line_Hel, BreakLF)] EmptyString;
              mkLines [(line_lo, BreakCRLF)] EmptyString]
             eq_refl eq_refl).
  reflexivity.
Defined.

(** C2: the listener of ['data'] splits each chunk on its own and carries
    nothing over from one chunk to the next, so what a chunk adds is the
    delta of that chunk alone; and there is a stream of two whole delta
    lines which, delivered in one piece, gives [Hello] and, delivered cut
    inside its first line, loses the delta of that line and gives [lo]. *)
Theorem split_line_loses_delta :
  (forall (RT : Runtime) (st : StreamState) (chunk : string),
      on_data st chunk
      = mkState (combinedResponse st ++ chunk_delta chunk) (promise st))
  /\ exists a b : string,
      a ++ b = chunk_text (mkLines [(line_Hel, BreakLF); (line_lo, BreakLF)] EmptyString)
      /\ a = line_broken
      /\ (forall (env : Env) (message model : JSValue),
           fst (sendMessage (RT := Reference.runtime) env
                  (streaming [Data (a ++ b); End]) message model)
           = Some (Resolved "Hello"))
      /\ (forall (env : Env) (message model : JSValue),
           fst (sendMessage (RT := Reference.runtime) env
                  (streaming [Data a; Data b; End]) message model)
           = Some (Resolved "lo")).
Proof.
  split.
  - intros RT. apply on_data_delta.
  - exists line_broken, (line_rest ++ NL ++ line_lo ++ NL).
    repeat split; intros; reflexivity.
Qed.




(* ================================================================== *)
(** ** The checks of the handler *)

Section Checks.
Context {RT : Runtime}.

Lemma child_message_of_falsy (request : JSValue) :
  ToBoolean request = false ->
  Get (js_or request (JObject [])) K_message = Normal (child K_message request).
Proof.
  intro H. unfold js_or. rewrite H. now rewrite (child_of_falsy request K_message H).
Qed.

(** Destructuring a body reads its model and the message of its request. *)
Lemma destructure_fields (req_body : JSValue) :
  nullish req_body = false ->
  destructure req_body = Normal (body_model req_body, request_message req_body).
Proof.
  intro Hn.
  assert (Get (js_or (child K_request req_body) (JObject [])) K_message
          = Normal (child K_message (child K_request req_body))) as Hm.
  { destruct (ToBoolean (child K_request req_body)) eqn:Hr.
    - unfold js_or. rewrite Hr. apply Get_child. now apply truthy_not_nullish.
    - now apply child_message_of_falsy. }
  assert (destructure req_body
          = (model <- Get req_body K_model ;;
             request <- Get req_body K_request ;;
             message <- Get (js_or request (JObject [])) K_message ;;
             Normal (model, message))) as ->.
  { destruct req_body; try discriminate Hn; reflexivity. }
  rewrite !(Get_child req_body _ Hn). cbn [bindC]. rewrite Hm. reflexivity.
Qed.

Lemma check_no_key (env : Env) (req_body : JSValue) :
  env_truthy (DEEPSEEK env) = false ->
  check env req_body = Normal (Refused (respond_error 500 missing_key_message)).
Proof. intro H. unfold check. now rewrite H. Qed.

Lemma check_no_message (env : Env) (req_body : JSValue) :
  env_truthy (DEEPSEEK env) = true ->
  nullish req_body = false ->
  ToBoolean (request_message req_body) = false ->
  check env req_body = Normal (Refused (respond_error 400 missing_message_message)).
Proof.
  intros He Hn Hm. unfold check. rewrite He, (destructure_fields _ Hn).
  cbn [negb bindC]. now rewrite Hm.
Qed.

Lemma check_bad_model (env : Env) (req_body : JSValue) :
  env_truthy (DEEPSEEK env) = true ->
  nullish req_body = false ->
  ToBoolean (request_message req_body) = true ->
  ToBoolean (body_model req_body) = true ->
  includes VALID_MODELS (body_model req_body) = false ->
  check env req_body = Normal (Refused (respond_error 400 invalid_model_message)).
Proof.
  intros He Hn Hm Ht Hi. unfold check. rewrite He, (destructure_fields _ Hn).
  cbn [negb bindC]. now rewrite Hm, Ht, Hi.
Qed.

(** The requests that pass validation are those the checks accept. *)
Lemma check_accepts (env : Env) (req_body : JSValue) :
  passes_validation env req_body = true ->
  check env req_body
  = Normal (Accepted (request_message req_body) (body_model req_body)).
Proof.
  unfold passes_validation. intro H.
  apply andb_prop in H as [H Hmodel]. apply andb_prop in H as [He Hm].
  assert (nullish req_body = false) as Hn.
  { destruct (nullish req_body) eqn:Hn; [|reflexivity].
    destruct req_body; try discriminate Hn; discriminate Hm. }
  unfold check. rewrite He, (destructure_fields _ Hn). cbn [negb bindC]. rewrite Hm.
  cbn [negb].
  destruct (ToBoolean (body_model req_body)); cbn in *.
  - now rewrite Hmodel.
  - reflexivity.
Qed.

Lemma accepted_passes (env : Env) (req_body message model : JSValue) :
  check env req_body = Normal (Accepted message model) ->
  passes_validation env req_body = true.
Proof.
  unfold check, passes_validation.
  destruct (env_truthy (DEEPSEEK env)); cbn [negb andb]; [|discriminate].
  destruct (nullish req_body) eqn:Hn.
  { destruct req_body; try discriminate Hn; cbn; discriminate. }
  rewrite (destructure_fields _ Hn). cbn [negb bindC andb].
  destruct (ToBoolean (request_message req_body)); cbn [negb andb]; [|discriminate].
  destruct (ToBoolean (body_model req_body)); cbn [negb andb orb].
  - destruct (includes VALID_MODELS (body_model req_body)); cbn; [reflexivity|discriminate].
  - reflexivity.
Qed.

(** What the handler does with an accepted request. *)
Lemma handler_accepted (env : Env) (up : Upstream) (req_body : JSValue) :
  passes_validation env req_body = true ->
  handler env up req_body
  = match post_json up (clear_request env) with
    | Throw error => mkRun (Some (caught error)) [clear_request env]
    | Normal _ =>
        let request :=
          completions_request env (request_message req_body) (body_model req_body) in
        mkRun match post_stream up request with
              | Throw error => Some (caught error)
              | Normal events =>
                  match drain events with
                  | None => None
                  | Some (Rejected error) => Some (caught error)
                  | Some (Resolved text) => Some (respond_ok text)
                  end
              end
              [clear_request env; request]
    end.
Proof.
  intro H. unfold handler. rewrite (check_accepts _ _ H).
  unfold clearChatContext, axios_post_json.
  destruct (post_json up (clear_request env)) as [d|e]; [|reflexivity].
  unfold sendMessage, axios_post_stream. cbn zeta.
  destruct (post_stream up _) as [events|e]; [|reflexivity].
  destruct (drain events) as [[text|e]|]; reflexivity.
Qed.

End Checks.

(* ================================================================== *)
(** ** The handler *)

(** A stream is data that goes on, or data up to its first end or error. *)
Lemma events_shape (events : list StreamEvent) :
  (exists chunks, events = map Data chunks)
  \/ (exists chunks rest, events = (map Data chunks ++ End :: rest)%list)
  \/ (exists chunks e rest, events = (map Data chunks ++ Error e :: rest)%list).
Proof.
  induction events as [|ev events IH].
  - left. now exists [].
  - destruct ev as [chunk| |e].
    + destruct IH as [[cs ->]|[(cs & rest & ->)|(cs & e & rest & ->)]].
      * left. now exists (chunk :: cs).
      * right; left. now exists (chunk :: cs), rest.
      * right; right. now exists (chunk :: cs), e, rest.
    + right; left. now exists [], events.
    + right; right. now exists [], e, events.
Qed.

(** A resolved promise holds the deltas of every chunk before the end. *)
Lemma drain_resolved {RT : Runtime} (events : list StreamEvent) (text : string) :
  drain events = Some (Resolved text) ->
  exists chunks rest,
    events = (map Data chunks ++ End :: rest)%list
    /\ text = concat_all (map chunk_delta chunks).
Proof.
  intro H.
  destruct (events_shape events) as [[cs ->]|[(cs & rest & ->)|(cs & e & rest & ->)]].
  - rewrite drain_pending in H. discriminate.
  - rewrite drain_end in H. injection H as <-. now exists cs, rest.
  - rewrite drain_error in H. discriminate.
Qed.




(** C5: when a request passes validation and the context reset fails, the
    handler answers 500 with the message of the error inside its JSON body,
    and the only upstream call made is the context reset: [sendMessage] is
    not invoked. *)
Theorem context_reset_failure_gives_500 :
  forall (RT : Runtime) (env : Env) (up : Upstream) (req_body : JSValue) (e : JSError),
    passes_validation env req_body = true ->
    post_json up (clear_request env) = Throw e ->
    handler env up req_body
    = mkRun (Some (respond_error 500
                     ("Failed to process the request. Details: " ++ message e)))
            [clear_request env]
    /\ forall message model : JSValue,
        ~ In (completions_request env message model) (calls (handler env up req_body)).
Proof.
  intros RT env up req_body e Hv Hc.
  rewrite (handler_accepted env up req_body Hv), Hc. split; [reflexivity|].
  intros message model [H|[]]. discriminate H.
Qed.

Lemma context_reset_failure_gives_500_witness :
  handler (RT := Reference.runtime) env_with_key
    (refusing (mkError "Request failed with status code 401"))
    (chat_body (JString "deepseek_chat") (JString "hi"))
  = mkRun (Some (respond_error 500
       "Failed to process the request. Details: Request failed with status code 401"))
          [clear_request env_with_key].
Proof.
  exact (proj1 (context_reset_failure_gives_500 Reference.runtime env_with_key
                  (refusing (mkError "Request failed with status code 401"))
                  (chat_body (JString "deepseek_chat") (JString "hi"))
                  (mkError "Request failed with status code 401")
                  eq_refl eq_refl)).
Defined.

(** With the credential set, whatever the handler answers is not the
    missing-credential error. *)
Lemma credential_set_other_answer {RT : Runtime}
      (env : Env) (up : Upstream) (req_body : JSValue) :
  env_truthy (DEEPSEEK env) = true ->
  response (handler env up req_body)
  <> Some (respond_error 500 missing_key_message).
Proof.
  intro He. unfold handler, check. rewrite He. cbn [negb].
  destruct (destructure req_body) as [[model message]|e]; cbn [bindC].
  2:{ cbn. discriminate. }
  destruct (ToBoolean message); cbn [negb]; [|cbn; discriminate].
  destruct (ToBoolean model && negb (includes VALID_MODELS model)); [cbn; discriminate|].
  unfold clearChatContext, axios_post_json.
  destruct (post_json up (clear_request env)); [|cbn; discriminate].
  unfold sendMessage, axios_post_stream.
  destruct (post_stream up _) as [events|e]; [|cbn; discriminate].
  destruct (drain events) as [[text|e]|]; cbn; discriminate.
Qed.

(** C6: when the credential is unset the handler answers 500 with one fixed
    message, whatever the body and the upstream, and makes no upstream call;
    the credential is looked up by the handler at each request: the same
    request, once the credential is set, is not answered with that
    message. *)
Theorem missing_credential_gives_500 :
  forall (RT : Runtime) (env : Env) (up : Upstream) (req_body : JSValue),
    DEEPSEEK env = None ->
    handler env up req_body
    = mkRun (Some (respond_error 500
                     "DeepSeek API key is not provided in environment variables."))
            []
    /\ forall env' : Env,
         env_truthy (DEEPSEEK env') = true ->
         response (handler env' up req_body) <> response (handler env up req_body).
Proof.
  intros RT env up req_body He.
  assert (handler env up req_body
          = mkRun (Some (respond_error 500 missing_key_message)) []) as H.
  { unfold handler. rewrite (check_no_key env req_body); [reflexivity|]. now rewrite He. }
  split; [exact H|].
  intros env' He'. rewrite H. now apply credential_set_other_answer.
Qed.

Lemma missing_credential_gives_500_witness :
  handler (RT := Reference.runtime) env_without_key
    (streaming [Data line_Hel; Data line_lo; End])
    (chat_body (JString "deepseek_chat") (JString "hi"))
  = mkRun (Some (respond_error 500
                   "DeepSeek API key is not provided in environment variables."))
          [].
Proof.
  exact (proj1 (missing_credential_gives_500 Reference.runtime env_without_key
                  (streaming [Data line_Hel; Data line_lo; End])
                  (chat_body (JString "deepseek_chat") (JString "hi")) eq_refl)).
Defined.

(** C7, as first stated, fails: a model that is present, is not in
    [VALID_MODELS] and is falsy (here the empty string) is let through, the
    two upstream calls are made and the answer is 200; and without the
    credential the answer to an unknown model is 500. *)
Lemma falsy_model_is_let_through :
  payload_field "model"
    (chat_body (JString EmptyString) (JString "hi"))
  = Some (JString EmptyString)
  /\ includes VALID_MODELS (JString EmptyString) = false
  /\ handler (RT := Reference.runtime) env_with_key
       (streaming [Data line_Hel; Data line_lo; End])
       (chat_body (JString EmptyString) (JString "hi"))
     = mkRun (Some (respond_ok "Hello"))
             [clear_request env_with_key;
              completions_request (RT := Reference.runtime) env_with_key
                (JString "hi") (JString EmptyString)]
  /\ handler (RT := Reference.runtime) env_without_key
       (streaming [Data line_Hel; Data line_lo; End])
       (chat_body (JString "deepseek_v9") (JString "hi"))
     = mkRun (Some (respond_error 500
                      "DeepSeek API key is not provided in environment variables."))
             [].
Proof. repeat split. Qed.

(** C7, amended: with the credential present, a request whose [model] is
    truthy and is not in [VALID_MODELS] is answered 400 with an error in
    JSON and no upstream call is made; when the request also has a message,
    the error is the one that lists the valid models. *)
Theorem invalid_model_is_refused :
  forall (RT : Runtime) (env : Env) (up : Upstream) (req_body : JSValue),
    env_truthy (DEEPSEEK env) = true ->
    ToBoolean (body_model req_body) = true ->
    includes VALID_MODELS (body_model req_body) = false ->
    (exists text : string,
        handler env up req_body = mkRun (Some (respond_error 400 text)) [])
    /\ (ToBoolean (request_message req_body) = true ->
        handler env up req_body
        = mkRun (Some (respond_error 400
             "Invalid model. Valid models are: deepseek_code, deepseek_chat")) []).
Proof.
  intros RT env up req_body He Ht Hi.
  pose proof (child_truthy_not_nullish req_body K_model Ht) as Hn.
  assert (ToBoolean (request_message req_body) = true ->
          handler env up req_body
          = mkRun (Some (respond_error 400 invalid_model_message)) []) as Hbad.
  { intro Hm. unfold handler. now rewrite (check_bad_model env req_body He Hn Hm Ht Hi). }
  split; [|exact Hbad].
  destruct (ToBoolean (request_message req_body)) eqn:Hm.
  - eexists. now apply Hbad.
  - eexists. unfold handler. now rewrite (check_no_message env req_body He Hn Hm).
Qed.

Lemma invalid_model_is_refused_witness :
  handler (RT := Reference.runtime) env_with_key
    (streaming [Data line_Hel; Data line_lo; End])
    (chat_body (JString "deepseek_v9") (JString "hi"))
  = mkRun (Some (respond_error 400
       "Invalid model. Valid models are: deepseek_code, deepseek_chat")) [].
Proof.
  exact (proj2 (invalid_model_is_refused Reference.runtime env_with_key
                  (streaming [Data line_Hel; Data line_lo; End])
                  (chat_body (JString "deepseek_v9") (JString "hi"))
                  eq_refl eq_refl eq_refl) eq_refl).
Defined.

(** C8: when a request passes validation and an upstream operation fails
    (the context reset, the completion call, or the stream before its end),
    the handler answers 500 with the message of the error inside its JSON
    body; and any answer it gives is either such a 500 or a 200 that holds
    the deltas of every chunk the stream delivered before it ended: text
    accumulated before a failure is never sent. *)
Theorem upstream_failure_gives_500_never_partial :
  forall (RT : Runtime) (env : Env) (up : Upstream) (req_body : JSValue),
    passes_validation env req_body = true ->
    let request :=
      completions_request env (request_message req_body) (body_model req_body) in
    let failed (e : JSError) :=
      respond_error 500 ("Failed to process the request. Details: " ++ message e) in
    (forall e, post_json up (clear_request env) = Throw e ->
               response (handler env up req_body) = Some (failed e))
    /\ (forall d e, post_json up (clear_request env) = Normal d ->
                    post_stream up request = Throw e ->
                    response (handler env up req_body) = Some (failed e))
    /\ (forall d chunks e rest,
           post_json up (clear_request env) = Normal d ->
           post_stream up request = Normal (map Data chunks ++ Error e :: rest)%list ->
           response (handler env up req_body) = Some (failed e))
    /\ (forall r, response (handler env up req_body) = Some r ->
           (exists e, r = failed e)
           \/ (exists chunks rest,
                  post_stream up request = Normal (map Data chunks ++ End :: rest)%list
                  /\ r = respond_ok (concat_all (map chunk_delta chunks)))).
Proof.
  intros RT env up req_body Hv. cbv zeta.
  rewrite (handler_accepted env up req_body Hv). cbv zeta.
  set (request := completions_request env (request_message req_body)
                    (body_model req_body)).
  split; [|split; [|split]].
  - intros e Hc. now rewrite Hc.
  - intros d e Hc Hs. now rewrite Hc, Hs.
  - intros d chunks e rest Hc Hs. rewrite Hc, Hs. cbn [response]. now rewrite drain_error.
  - intros r. destruct (post_json up (clear_request env)) as [d|e]; cbn [response].
    2:{ intro H. injection H as <-. left. now exists e. }
    destruct (post_stream up request) as [events|e].
    2:{ intro H. injection H as <-. left. now exists e. }
    destruct (drain events) as [[text|e]|] eqn:Hd.
    + intro H. injection H as <-. right.
      destruct (drain_resolved events text Hd) as (chunks & rest & -> & ->).
      now exists chunks, rest.
    + intro H. injection H as <-. left. now exists e.
    + discriminate.
Qed.

Lemma upstream_failure_gives_500_never_partial_witness :
  response (handler (RT := Reference.runtime) env_with_key
              (streaming [Data line_Hel; Error (mkError "socket hang up"); End])
              (chat_body (JString "deepseek_chat") (JString "hi")))
  = Some (respond_error 500 "Failed to process the request. Details: socket hang up").
Proof.
  exact (proj1 (proj2 (proj2
           (upstream_failure_gives_500_never_partial Reference.runtime env_with_key
              (streaming [Data line_Hel; Error (mkError "socket hang up"); End])
              (chat_body (JString "deepseek_chat") (JString "hi")) eq_refl)))
           (JObject []) [line_Hel] (mkError "socket hang up") [End] eq_refl eq_refl).
Defined.

(** C9: the context reset is the first upstream call of every request that
    passes validation, and its payload names the model class
    [deepseek_code] whatever model the request chose; for a request that
    chose [deepseek_chat], the completion is sent to [deepseek_chat] while
    the context cleared before it is that of [deepseek_code]. *)
Theorem context_reset_model_is_fixed :
  forall (RT : Runtime) (env : Env) (up : Upstream) (req_body : JSValue),
    passes_validation env req_body = true ->
    (exists first rest,
        calls (handler env up req_body) = first :: rest
        /\ url first = "https://chat.deepseek.com/api/v0/chat/clear_context"
        /\ payload_field "model_class" (data first) = Some (JString "deepseek_code"))
    /\ (body_model req_body = JString "deepseek_chat" ->
        forall d, post_json up (clear_request env) = Normal d ->
        exists first second,
          calls (handler env up req_body) = [first; second]
          /\ payload_field "model_class" (data first) = Some (JString "deepseek_code")
          /\ url second = "https://chat.deepseek.com/api/v0/chat/completions"
          /\ payload_field "model_class" (data second) = Some (JString "deepseek_chat")).
Proof.
  intros RT env up req_body Hv.
  rewrite (handler_accepted env up req_body Hv). split.
  - destruct (post_json up (clear_request env)); eexists; eexists;
      (split; [reflexivity | split; reflexivity]).
  - intros Hm d Hc. rewrite Hc, Hm. eexists; eexists.
    split; [reflexivity | repeat split].
Qed.

Lemma context_reset_model_is_fixed_witness :
  exists first second,
    calls (handler (RT := Reference.runtime) env_with_key
             (streaming [Data line_Hel; Data line_lo; End])
             (chat_body (JString "deepseek_chat") (JString "hi")))
    = [first; second]
    /\ payload_field "model_class" (data first)
       = Some (JString "deepseek_code")
    /\ url second = "https://chat.deepseek.com/api/v0/chat/completions"
    /\ payload_field "model_class" (data second)
       = Some (JString "deepseek_chat").
Proof.
  exact (proj2 (context_reset_model_is_fixed Reference.runtime env_with_key
                  (streaming [Data line_Hel; Data line_lo; End])
                  (chat_body (JString "deepseek_chat") (JString "hi")) eq_refl)
           eq_refl (JObject []) eq_refl).
Defined.

(** C10, as first stated, fails: without the credential, a body that has no
    [request] is answered 500, not 400; a [request] that is not an object
    but is truthy (here a string) is not replaced by an empty object; and
    with the credential present, when the body itself is [undefined] there
    is no [request] to read, the destructuring throws and the answer is
    500. *)
Lemma no_request_without_credential :
  handler (RT := Reference.runtime) env_without_key
    (streaming [Data line_Hel; Data line_lo; End]) (JObject [])
  = mkRun (Some (respond_error 500
                   "DeepSeek API key is not provided in environment variables."))
          []
  /\ js_or (RT := Reference.runtime) (JString "hi") (JObject []) = JString "hi"
  /\ is_object (body_request (RT := Reference.runtime) JUndefined) = false
  /\ handler (RT := Reference.runtime) env_with_key
       (streaming [Data line_Hel; Data line_lo; End]) JUndefined
     = mkRun (Some (respond_error 500
          ("Failed to process the request. Details: "
           ++ "Cannot destructure property 'model' of 'req.body' as it is undefined.")))
             [].
Proof. repeat split. Qed.

(** C10, amended: with the credential present, for every body that is
    neither [undefined] nor [null] and whose [request] is absent or is not
    an object, the handler does not throw: the message read is [undefined]
    and the answer is 400 with the missing-message error, no upstream call
    being made. *)
Theorem absent_request_is_refused :
  forall (RT : Runtime) (env : Env) (up : Upstream) (req_body : JSValue),
    env_truthy (DEEPSEEK env) = true ->
    nullish req_body = false ->
    is_object (body_request req_body) = false ->
    destructure req_body = Normal (body_model req_body, JUndefined)
    /\ handler env up req_body
       = mkRun (Some (respond_error 400 "Message is required.")) [].
Proof.
  intros RT env up req_body He Hn Ho.
  assert (request_message req_body = JUndefined) as Hm.
  { unfold request_message.
    destruct (body_request req_body) as [| |b|n|s|es|ps]; try reflexivity.
    discriminate Ho. }
  split.
  - now rewrite (destructure_fields req_body Hn), Hm.
  - unfold handler. rewrite (check_no_message env req_body He Hn); [reflexivity|].
    now rewrite Hm.
Qed.

Lemma absent_request_is_refused_witness :
  handler (RT := Reference.runtime) env_with_key
    (streaming [Data line_Hel; Data line_lo; End])
    (JObject [("model", JString "deepseek_code"); ("request", JString "hi")])
  = mkRun (Some (respond_error 400 "Message is required.")) [].
Proof.
  exact (proj2 (absent_request_is_refused Reference.runtime env_with_key
                  (streaming [Data line_Hel; Data line_lo; End])
                  (JObject [("model", JString "deepseek_code"); ("request", JString "hi")])
                  eq_refl eq_refl eq_refl)).
Defined.

(* ================================================================== *)
(** ** Further properties of the stream reader *)

Section ChunkBoundaries.
Context {RT : Runtime}.

Lemma line_delta_empty : line_delta EmptyString = EmptyString.
Proof. reflexivity. Qed.

(** Behind a chunk that ends with a line break, a text splits as on its
    own. *)
Lemma split_lines_after_chunk (c : Lines) (t : string) :
  whole c = true -> ends_with_break c = true ->
  split_lines (chunk_text c ++ t) = (map fst (ended c) ++ split_lines t)%list.
Proof.
  destruct c as [ls lst]. unfold whole, ends_with_break, chunk_text, chunk_lines.
  cbn [ended last_line]. intros Hw He. apply String.eqb_eq in He. subst lst.
  induction ls as [|[l b] ls IH]; cbn [map fold_right app fst snd forallb] in *.
  - reflexivity.
  - apply andb_prop in Hw as [Hl Hw].
    rewrite !append_assoc3. rewrite (split_lines_break _ _ _ Hl). now rewrite (IH Hw).
Qed.

Lemma chunk_delta_after_chunk (c : Lines) (t : string) :
  whole c = true -> ends_with_break c = true ->
  chunk_delta (chunk_text c ++ t) = chunk_delta (chunk_text c) ++ chunk_delta t.
Proof.
  intros Hw He. unfold chunk_delta.
  rewrite (split_lines_after_chunk c t Hw He), (split_lines_chunk c Hw).
  unfold chunk_lines. unfold ends_with_break in He. apply String.eqb_eq in He. rewrite He.
  rewrite !map_app, !concat_all_app. cbn [map concat_all fold_right].
  rewrite line_delta_empty. cbn. now rewrite append_empty_r.
Qed.

Lemma chunk_delta_after_chunks (chunks : list Lines) (t : string) :
  forallb whole chunks = true -> forallb ends_with_break chunks = true ->
  chunk_delta (concat_all (map chunk_text chunks) ++ t)
  = concat_all (map chunk_delta (map chunk_text chunks)) ++ chunk_delta t.
Proof.
  induction chunks as [|c chunks IH]; cbn [map forallb concat_all fold_right]; intros Hw He.
  - reflexivity.
  - apply andb_prop in Hw as [Hc Hw]. apply andb_prop in He as [Hb He].
    fold (concat_all (map chunk_text chunks)).
    fold (concat_all (map chunk_delta (map chunk_text chunks))).
    rewrite !append_assoc3, (chunk_delta_after_chunk c _ Hc Hb), (IH Hw He).
    reflexivity.
Qed.

End ChunkBoundaries.

(** X1: when every chunk but the last is made of whole lines and ends with
    a line break, delivering the chunks one by one gives what delivering
    their whole text in one chunk gives, whatever the last chunk holds. *)
Theorem chunks_cut_at_line_breaks_are_harmless :
  forall (RT : Runtime) (chunks : list Lines) (tail : string),
    forallb whole chunks = true ->
    forallb ends_with_break chunks = true ->
    drain (map Data (map chunk_text chunks) ++ [Data tail; End])
    = drain [Data (concat_all (map chunk_text chunks) ++ tail); End].
Proof.
  intros RT chunks tail Hw He.
  change (map Data (map chunk_text chunks) ++ [Data tail; End])%list
    with (map Data (map chunk_text chunks) ++ map Data [tail] ++ [End])%list.
  rewrite app_assoc, <- map_app, drain_end.
  pose proof (drain_end [concat_all (map chunk_text chunks) ++ tail] []) as Hr.
  cbn [map app] in Hr. rewrite Hr.
  cbn [map concat_all fold_right]. rewrite map_app, concat_all_app.
  cbn [map concat_all fold_right].
  now rewrite (chunk_delta_after_chunks chunks tail Hw He), !append_empty_r.
Qed.

Lemma chunks_cut_at_line_breaks_are_harmless_witness :
  drain (RT := Reference.runtime)
    [Data (line_Hel ++ NL); Data (line_lo ++ CRNL); Data line_garbage; End]
  = drain (RT := Reference.runtime)
      [Data (line_Hel ++ NL ++ line_lo ++ CRNL ++ line_garbage); End].
Proof.
  exact (chunks_cut_at_line_breaks_are_harmless Reference.runtime
           [mkLines [(line_Hel, BreakLF)] EmptyString;
            mkLines [(line_lo, BreakCRLF)] EmptyString]
           line_garbage eq_refl eq_refl).
Defined.

(** X2: the promise settles at the first end or error of the stream and
    nothing that the stream emits afterwards changes it: data, a second
    end, or an error after the end. *)
Theorem first_end_or_error_decides :
  forall (RT : Runtime) (chunks : list string) (rest : list StreamEvent),
    drain (map Data chunks ++ End :: rest) = drain (map Data chunks ++ [End])
    /\ forall e : JSError,
        drain (map Data chunks ++ Error e :: rest) = Some (Rejected e).
Proof.
  intros RT chunks rest. split.
  - now rewrite !drain_end.
  - intro e. apply drain_error.
Qed.

(** X3: the result of two runs of chunks delivered one after the other is
    the result of the first followed by the result of the second. *)
Theorem deltas_of_consecutive_chunks_concatenate :
  forall (RT : Runtime) (first second : list string) (t1 t2 : string),
    drain (map Data first ++ [End]) = Some (Resolved t1) ->
    drain (map Data second ++ [End]) = Some (Resolved t2) ->
    drain (map Data (first ++ second) ++ [End]) = Some (Resolved (t1 ++ t2)).
Proof.
  intros RT first second t1 t2 H1 H2.
  rewrite drain_end in *. injection H1 as <-. injection H2 as <-.
  now rewrite !map_app, concat_all_app.
Qed.

Lemma deltas_of_consecutive_chunks_concatenate_witness :
  drain (RT := Reference.runtime) (map Data ([line_Hel] ++ [line_lo]) ++ [End])
  = Some (Resolved ("Hel" ++ "lo")).
Proof.
  exact (deltas_of_consecutive_chunks_concatenate Reference.runtime
           [line_Hel] [line_lo] "Hel" "lo" eq_refl eq_refl).
Defined.

(* ================================================================== *)
(** ** Trimming and the prefix of a line *)

Lemma trimStart_space (p s : string) :
  all_space p = true -> trimStart (p ++ s) = trimStart s.
Proof.
  induction p as [|c p IH]; cbn; intro H; [reflexivity|].
  apply andb_prop in H as [Hc Hp]. rewrite Hc. now apply IH.
Qed.

Lemma trimEnd_all_space (q : string) : all_space q = true -> trimEnd q = EmptyString.
Proof.
  induction q as [|c q IH]; cbn; intro H; [reflexivity|].
  apply andb_prop in H as [Hc Hq]. now rewrite (IH Hq), Hc.
Qed.

Lemma trimEnd_space (s q : string) :
  all_space q = true -> trimEnd (s ++ q) = trimEnd s.
Proof.
  intro H. induction s as [|c s IH]; cbn.
  - now apply trimEnd_all_space.
  - now rewrite IH.
Qed.

Lemma trimStart_all_space (s : string) : all_space s = true -> trimStart s = EmptyString.
Proof.
  induction s as [|c s IH]; cbn; intro H; [reflexivity|].
  apply andb_prop in H as [Hc Hs]. rewrite Hc. now apply IH.
Qed.

Lemma trimStart_then_space (s q : string) :
  all_space s = false -> trimStart (s ++ q) = trimStart s ++ q.
Proof.
  induction s as [|c s IH]; cbn; intro H; [discriminate|].
  destruct (isWhiteSpace c); cbn in H; [now apply IH | reflexivity].
Qed.

(** White space around a text does not change what [trim] gives. *)
Lemma trim_padding (p s q : string) :
  all_space p = true -> all_space q = true -> trim (p ++ s ++ q) = trim s.
Proof.
  intros Hp Hq. unfold trim. rewrite (trimStart_space p _ Hp).
  destruct (all_space s) eqn:Hs.
  - rewrite (trimStart_all_space s Hs).
    assert (all_space (s ++ q) = true) as Hsq.
    { clear Hp. induction s as [|c s IH]; cbn in *; [exact Hq|].
      apply andb_prop in Hs as [Hc Hs]. rewrite Hc. now apply IH. }
    now rewrite (trimStart_all_space _ Hsq).
  - rewrite (trimStart_then_space s q Hs). now apply trimEnd_space.
Qed.

(** What [trimEnd] keeps is the beginning of the text. *)
Lemma startsWith_trimEnd (s p : string) :
  startsWith (trimEnd s) p = true -> startsWith s p = true.
Proof.
  revert p. induction s as [|c s IH]; intros p H; [exact H|].
  destruct p as [|b p]; [reflexivity|].
  cbn [trimEnd] in H. cbn [startsWith].
  destruct (trimEnd s) as [|d r] eqn:Hr.
  - destruct (isWhiteSpace c); [discriminate H|].
    cbn [startsWith] in H. apply andb_prop in H as [Hcb Hp].
    rewrite Hcb. cbn. destruct p; [reflexivity | discriminate Hp].
  - cbn [startsWith] in H. apply andb_prop in H as [Hcb Hp].
    rewrite Hcb. cbn. now apply IH.
Qed.

(** X4: white space before and after a line, a trailing CR included, does
    not change what the line adds to the accumulator. *)
Theorem padding_around_a_line_is_ignored :
  forall (RT : Runtime) (acc before line after : string),
    all_space before = true ->
    all_space after = true ->
    line_step acc (before ++ line ++ after) = line_step acc line.
Proof.
  intros RT acc before line after Hb Ha.
  unfold line_step, parse_and_accumulate. now rewrite (trim_padding _ _ _ Hb Ha).
Qed.

Lemma padding_around_a_line_is_ignored_witness :
  line_step (RT := Reference.runtime) "Hel"
    ("   " ++ line_lo ++ String CR EmptyString)
  = line_step (RT := Reference.runtime) "Hel" line_lo.
Proof.
  exact (padding_around_a_line_is_ignored Reference.runtime "Hel"
           "   " line_lo (String CR EmptyString) eq_refl eq_refl).
Defined.

(** X5: the prefix is [data: ] with its space: a line that begins with
    [data:] and goes on with anything but a space adds nothing, whatever
    follows. *)
Theorem data_without_space_is_ignored :
  forall (RT : Runtime) (acc payload : string),
    startsWith payload " " = false ->
    line_step acc ("data:" ++ payload) = acc.
Proof.
  intros RT acc payload H. unfold line_step.
  destruct (startsWith (trim ("data:" ++ payload)) "data: ") eqn:Hs; [|reflexivity].
  unfold trim in Hs. apply startsWith_trimEnd in Hs.
  change (trimStart ("data:" ++ payload)) with ("data:" ++ payload) in Hs.
  change (startsWith ("data:" ++ payload) "data: ")
    with (startsWith payload " ") in Hs.
  congruence.
Qed.

Lemma data_without_space_is_ignored_witness :
  line_step (RT := Reference.runtime) "Hel"
    ("data:" ++ wire "{'choices':[{'delta':{'content':'lo'}}]}")
  = "Hel".
Proof.
  exact (data_without_space_is_ignored Reference.runtime "Hel"
           (wire "{'choices':[{'delta':{'content':'lo'}}]}") eq_refl).
Defined.

(** X6: a content that is not a string is added as the text that string
    concatenation gives it: [true] adds [true], an object adds
    [[object Object]]; an object with a property of its own named
    [toString] cannot be converted, the error is caught and nothing is
    added. *)
Theorem content_that_is_not_a_string :
  forall (RT : Runtime) (acc line payload : string) (event : JSValue),
    data_payload line = Some payload ->
    JSON_parse payload = Normal event ->
    (delta_content event = JBool true -> line_step acc line = acc ++ "true")
    /\ (forall props, delta_content event = JObject props ->
                      hasOwn "toString" props = false ->
                      line_step acc line = acc ++ "[object Object]")
    /\ (forall props, delta_content event = JObject props ->
                      hasOwn "toString" props = true ->
                      line_step acc line = acc).
Proof.
  intros RT acc line payload event Hd Hp.
  rewrite line_step_delta. unfold line_delta. rewrite Hd, Hp.
  split; [|split].
  - now intros ->.
  - intros props -> Ht. unfold content_text. cbn. now rewrite Ht.
  - intros props -> Ht. unfold content_text. cbn. rewrite Ht. apply append_empty_r.
Qed.

Lemma content_that_is_not_a_string_witness :
  line_step (RT := Reference.runtime) "Hel"
    (wire "data: {'choices':[{'delta':{'content':{'text':'lo'}}}]}")
  = "Hel[object Object]".
Proof.
  exact (proj1 (proj2 (content_that_is_not_a_string Reference.runtime "Hel"
           (wire "data: {'choices':[{'delta':{'content':{'text':'lo'}}}]}")
           (wire "{'choices':[{'delta':{'content':{'text':'lo'}}}]}")
           (JObject [("choices",
              JArray [JObject [("delta",
                JObject [("content", JObject [("text", JString "lo")])])]])])
           eq_refl eq_refl))
           [("text", JString "lo")] eq_refl eq_refl).
Defined.

(* ================================================================== *)
(** ** Further properties of the handler *)

Lemma includes_In (models : list string) (v : JSValue) :
  includes models v = true -> exists s, v = JString s /\ In s models.
Proof.
  destruct v as [| |b|n|s|es|ps]; cbn; try discriminate.
  intro H. apply existsb_exists in H as (m & Hin & Heq).
  apply String.eqb_eq in Heq. subst m. now exists s.
Qed.

Lemma concat_all_empty (xs : list string) :
  (forall x, In x xs -> x = EmptyString) -> concat_all xs = EmptyString.
Proof.
  induction xs as [|x xs IH]; cbn; intro H; [reflexivity|].
  rewrite (H x (or_introl eq_refl)). cbn. apply IH. intros y Hy. apply H. now right.
Qed.

(** X7: the completion call of a request that passes validation carries the
    message of the request as it came, asks for a stream, and names a model
    class of [VALID_MODELS]: the model of the request when it gave one,
    [deepseek_code] when it gave none. *)
Theorem completion_call_of_a_valid_request :
  forall (RT : Runtime) (env : Env) (up : Upstream) (req_body d : JSValue),
    passes_validation env req_body = true ->
    post_json up (clear_request env) = Normal d ->
    exists call model_class,
      calls (handler env up req_body) = [clear_request env; call]
      /\ url call = "https://chat.deepseek.com/api/v0/chat/completions"
      /\ responseType call = Some "stream"
      /\ payload_field "message" (data call) = Some (request_message req_body)
      /\ payload_field "stream" (data call) = Some (JBool true)
      /\ payload_field "model_class" (data call) = Some (JString model_class)
      /\ In model_class VALID_MODELS
      /\ (ToBoolean (body_model req_body) = true ->
          body_model req_body = JString model_class)
      /\ (ToBoolean (body_model req_body) = false -> model_class = "deepseek_code").
Proof.
  intros RT env up req_body d Hv Hc.
  rewrite (handler_accepted env up req_body Hv), Hc. cbv zeta. cbn [calls].
  unfold passes_validation in Hv. apply andb_prop in Hv as [_ Hm].
  destruct (ToBoolean (body_model req_body)) eqn:Ht; cbn in Hm.
  - destruct (includes_In _ _ Hm) as (s & Hs & Hin).
    eexists; exists s. split; [reflexivity|].
    cbn. unfold js_or. rewrite Ht, Hs. repeat split; auto. discriminate.
  - eexists; exists "deepseek_code". split; [reflexivity|].
    cbn. unfold js_or. rewrite Ht. repeat split; auto. discriminate.
Qed.

Lemma completion_call_of_a_valid_request_witness :
  exists call model_class,
    calls (handler (RT := Reference.runtime) env_with_key
             (streaming [Data line_Hel; End])
             (JObject [("request", JObject [("message", JString "hi")])]))
    = [clear_request env_with_key; call]
    /\ payload_field "model_class" (data call) = Some (JString model_class)
    /\ model_class = "deepseek_code".
Proof.
  destruct (completion_call_of_a_valid_request Reference.runtime env_with_key
              (streaming [Data line_Hel; End])
              (JObject [("request", JObject [("message", JString "hi")])])
              (JObject []) eq_refl eq_refl)
    as (call & model_class & Hcalls & _ & _ & _ & _ & Hmc & _ & _ & Hdefault).
  exists call, model_class. split; [exact Hcalls | split; [exact Hmc|]].
  apply Hdefault. reflexivity.
Defined.

(** X8: every upstream call of a request that passes validation carries the
    credential of the environment as a bearer token, and declares JSON. *)
Theorem upstream_calls_carry_the_credential :
  forall (RT : Runtime) (env : Env) (up : Upstream) (req_body : JSValue)
         (key : string) (call : AxiosRequest),
    passes_validation env req_body = true ->
    DEEPSEEK env = Some key ->
    In call (calls (handler env up req_body)) ->
    headers call = [("Authorization", "Bearer " ++ key);
                    ("Content-Type", "application/json")].
Proof.
  intros RT env up req_body key call Hv Hk.
  rewrite (handler_accepted env up req_body Hv).
  assert (request_headers env = [("Authorization", "Bearer " ++ key);
                                 ("Content-Type", "application/json")]) as Hh.
  { unfold request_headers. now rewrite Hk. }
  destruct (post_json up (clear_request env)); cbv zeta; cbn [calls In].
  - intros [<-|[<-|[]]]; exact Hh.
  - intros [<-|[]]; exact Hh.
Qed.

Lemma upstream_calls_carry_the_credential_witness :
  headers (clear_request env_with_key)
  = [("Authorization", "Bearer secret"); ("Content-Type", "application/json")].
Proof.
  exact (upstream_calls_carry_the_credential Reference.runtime env_with_key
           (streaming [Data line_Hel; End])
           (chat_body (JString "deepseek_chat") (JString "hi"))
           "secret" (clear_request env_with_key)
           eq_refl eq_refl (or_introl eq_refl)).
Defined.

(** X9: whatever the request, the handler calls upstream in one of three
    ways: not at all; the context reset alone, which then failed; or the
    context reset, which succeeded, followed by one completion call.  No
    endpoint is called twice and no completion is sent before a successful
    reset. *)
Theorem upstream_calls_are_reset_then_completion :
  forall (RT : Runtime) (env : Env) (up : Upstream) (req_body : JSValue),
    calls (handler env up req_body) = []
    \/ (calls (handler env up req_body) = [clear_request env]
        /\ exists e, post_json up (clear_request env) = Throw e)
    \/ (calls (handler env up req_body)
        = [clear_request env;
           completions_request env (request_message req_body) (body_model req_body)]
        /\ exists d, post_json up (clear_request env) = Normal d).
Proof.
  intros RT env up req_body.
  destruct (passes_validation env req_body) eqn:Hv.
  - rewrite (handler_accepted env up req_body Hv).
    destruct (post_json up (clear_request env)) as [d|e].
    + right; right. split; [reflexivity | now exists d].
    + right; left. split; [reflexivity | now exists e].
  - left. unfold handler.
    destruct (check env req_body) as [[r|message model]|e] eqn:Hc; try reflexivity.
    apply accepted_passes in Hc. congruence.
Qed.

(** X10: the upstream service is contacted exactly for the requests that
    pass validation. *)
Theorem upstream_is_called_iff_valid :
  forall (RT : Runtime) (env : Env) (up : Upstream) (req_body : JSValue),
    calls (handler env up req_body) = [] <-> passes_validation env req_body = false.
Proof.
  intros RT env up req_body. split.
  - intro H. destruct (passes_validation env req_body) eqn:Hv; [|reflexivity].
    rewrite (handler_accepted env up req_body Hv) in H.
    destruct (post_json up (clear_request env)); discriminate H.
  - intro Hv. unfold handler.
    destruct (check env req_body) as [[r|message model]|e] eqn:Hc; try reflexivity.
    apply accepted_passes in Hc. congruence.
Qed.

(** X11: the handler answers 200 with a text exactly when the request
    passes validation, the context reset succeeds and the stream reaches
    its end before any error, the text being the deltas of the chunks
    delivered before that end. *)
Theorem answer_200_iff :
  forall (RT : Runtime) (env : Env) (up : Upstream) (req_body : JSValue) (text : string),
    response (handler env up req_body) = Some (respond_ok text)
    <-> passes_validation env req_body = true
        /\ (exists d, post_json up (clear_request env) = Normal d)
        /\ exists chunks rest,
            post_stream up (completions_request env (request_message req_body)
                              (body_model req_body))
            = Normal (map Data chunks ++ End :: rest)%list
            /\ text = concat_all (map chunk_delta chunks).
Proof.
  intros RT env up req_body text. split.
  - intro H. destruct (passes_validation env req_body) eqn:Hv.
    + split; [reflexivity|].
      rewrite (handler_accepted env up req_body Hv) in H.
      destruct (post_json up (clear_request env)) as [d|e]; [|discriminate H].
      split; [now exists d|]. cbv zeta in H. cbn [response] in H.
      destruct (post_stream up _) as [events|e]; [|discriminate H].
      destruct (drain events) as [[t|e]|] eqn:Hd; try discriminate H.
      injection H as ->.
      destruct (drain_resolved events text Hd) as (chunks & rest & -> & ->).
      now exists chunks, rest.
    + exfalso. unfold handler in H.
      destruct (check env req_body) as [[r|message model]|e] eqn:Hc.
      * unfold check in Hc.
        destruct (env_truthy (DEEPSEEK env)); cbn [negb] in Hc.
        2:{ injection Hc as <-. discriminate H. }
        destruct (destructure req_body) as [[model message]|e]; cbn [bindC] in Hc;
          [|discriminate Hc].
        destruct (ToBoolean message); cbn [negb] in Hc.
        2:{ injection Hc as <-. discriminate H. }
        destruct (ToBoolean model && negb (includes VALID_MODELS model));
          [|discriminate Hc].
        injection Hc as <-. discriminate H.
      * apply accepted_passes in Hc. congruence.
      * discriminate H.
  - intros (Hv & (d & Hc) & chunks & rest & Hs & ->).
    rewrite (handler_accepted env up req_body Hv), Hc. cbv zeta. cbn [response].
    now rewrite Hs, drain_end.
Qed.

(** X12: a credential set to the empty string counts as unset: the answer
    is the same 500, with no upstream call. *)
Theorem empty_credential_gives_500 :
  forall (RT : Runtime) (env : Env) (up : Upstream) (req_body : JSValue),
    DEEPSEEK env = Some EmptyString ->
    handler env up req_body
    = mkRun (Some (respond_error 500
                     "DeepSeek API key is not provided in environment variables."))
            [].
Proof.
  intros RT env up req_body He. unfold handler.
  rewrite (check_no_key env req_body); [reflexivity|]. now rewrite He.
Qed.

Lemma empty_credential_gives_500_witness :
  handler (RT := Reference.runtime) (mkEnv (Some EmptyString))
    (streaming [Data line_Hel; End])
    (chat_body (JString "deepseek_chat") (JString "hi"))
  = mkRun (Some (respond_error 500
                   "DeepSeek API key is not provided in environment variables."))
          [].
Proof.
  exact (empty_credential_gives_500 Reference.runtime (mkEnv (Some EmptyString))
           (streaming [Data line_Hel; End])
           (chat_body (JString "deepseek_chat") (JString "hi")) eq_refl).
Defined.

(** X13: with the credential present, a request whose body is [undefined]
    or [null] makes the destructuring throw; the handler catches the error
    and answers 500 with the message of the runtime, without calling
    upstream. *)
Theorem body_that_cannot_be_destructured :
  forall (RT : Runtime) (env : Env) (up : Upstream) (req_body : JSValue),
    env_truthy (DEEPSEEK env) = true ->
    nullish req_body = true ->
    handler env up req_body
    = mkRun (Some (respond_error 500
                     ("Failed to process the request. Details: "
                      ++ message (TypeError_destructure req_body))))
            [].
Proof.
  intros RT env up req_body He Hn. unfold handler, check. rewrite He.
  destruct req_body; try discriminate Hn; reflexivity.
Qed.

Lemma body_that_cannot_be_destructured_witness :
  handler (RT := Reference.runtime) env_with_key (streaming [Data line_Hel; End])
    JUndefined
  = mkRun (Some (respond_error 500
       ("Failed to process the request. Details: "
        ++ "Cannot destructure property 'model' of 'req.body' as it is undefined.")))
          [].
Proof.
  exact (body_that_cannot_be_destructured Reference.runtime env_with_key
           (streaming [Data line_Hel; End]) JUndefined eq_refl eq_refl).
Defined.

(** X14: what the context reset answers is not looked at: two upstream
    services whose resets both succeed and whose completions agree are
    answered alike, whatever data the resets returned. *)
Theorem reset_answer_is_not_read :
  forall (RT : Runtime) (env : Env) (up1 up2 : Upstream) (req_body d1 d2 : JSValue),
    post_json up1 (clear_request env) = Normal d1 ->
    post_json up2 (clear_request env) = Normal d2 ->
    (forall r, post_stream up1 r = post_stream up2 r) ->
    handler env up1 req_body = handler env up2 req_body.
Proof.
  intros RT env up1 up2 req_body d1 d2 H1 H2 Hs. unfold handler.
  destruct (check env req_body) as [[r|message model]|e]; try reflexivity.
  unfold clearChatContext, axios_post_json. rewrite H1, H2.
  unfold sendMessage, axios_post_stream. now rewrite Hs.
Qed.

Lemma reset_answer_is_not_read_witness :
  handler (RT := Reference.runtime) env_with_key
    (mkUpstream (fun _ => Normal (JObject [("code", JNumber "0")]))
                (fun _ => Normal [Data line_Hel; End]))
    (chat_body (JString "deepseek_chat") (JString "hi"))
  = handler (RT := Reference.runtime) env_with_key
      (mkUpstream (fun _ => Normal (JObject [("code", JNumber "40003")]))
                  (fun _ => Normal [Data line_Hel; End]))
      (chat_body (JString "deepseek_chat") (JString "hi")).
Proof.
  exact (reset_answer_is_not_read Reference.runtime env_with_key
           (mkUpstream (fun _ => Normal (JObject [("code", JNumber "0")]))
                       (fun _ => Normal [Data line_Hel; End]))
           (mkUpstream (fun _ => Normal (JObject [("code", JNumber "40003")]))
                       (fun _ => Normal [Data line_Hel; End]))
           (chat_body (JString "deepseek_chat") (JString "hi"))
           (JObject [("code", JNumber "0")]) (JObject [("code", JNumber "40003")])
           eq_refl eq_refl (fun _ => eq_refl)).
Defined.

Lemma split_lines_not_nil (s : string) : split_lines s <> [].
Proof.
  induction s as [|c s IH]; cbn [split_lines]; [easy|].
  destruct (Ascii.eqb c LF); [easy|].
  destruct (Ascii.eqb c CR && startsWith s (String LF EmptyString)); [exact IH|].
  destruct (split_lines s); easy.
Qed.

Lemma join_cons (sep x : string) (xs : list string) :
  xs <> [] -> join sep (x :: xs) = x ++ sep ++ join sep xs.
Proof. destruct xs; [congruence | reflexivity]. Qed.

(** X15: splitting loses nothing but the line breaks: the lines of a text
    that holds no CR, joined again by LF, are the text. *)
Theorem split_then_join :
  forall s : string, no_CR s = true -> join NL (split_lines s) = s.
Proof.
  induction s as [|c s IH]; cbn [no_CR split_lines]; intro H; [reflexivity|].
  apply andb_prop in H as [Hc Hs]. apply negb_true_iff in Hc. rewrite Hc. cbn [andb].
  specialize (IH Hs).
  destruct (Ascii.eqb c LF) eqn:Hlf.
  - apply Ascii.eqb_eq in Hlf. subst c.
    rewrite (join_cons NL EmptyString _ (split_lines_not_nil s)). now rewrite IH.
  - pose proof (split_lines_not_nil s) as Hne.
    destruct (split_lines s) as [|l [|l' ls]]; [congruence| |].
    + cbn in *. now rewrite IH.
    + rewrite join_cons in IH by discriminate.
      rewrite join_cons by discriminate. cbn. now rewrite <- IH.
Qed.

Lemma split_then_join_witness :
  join NL (split_lines (line_Hel ++ NL ++ NL ++ line_lo ++ NL))
  = line_Hel ++ NL ++ NL ++ line_lo ++ NL.
Proof.
  exact (split_then_join (line_Hel ++ NL ++ NL ++ line_lo ++ NL) eq_refl).
Defined.

(** X16: there is no deadline: when the stream of a valid request delivers
    data and neither ends nor fails, the two upstream calls have been made
    and the handler sends no answer. *)
Theorem unending_stream_gets_no_answer :
  forall (RT : Runtime) (env : Env) (up : Upstream) (req_body d : JSValue)
         (chunks : list string),
    passes_validation env req_body = true ->
    post_json up (clear_request env) = Normal d ->
    post_stream up (completions_request env (request_message req_body)
                      (body_model req_body))
    = Normal (map Data chunks) ->
    handler env up req_body
    = mkRun None
        [clear_request env;
         completions_request env (request_message req_body) (body_model req_body)].
Proof.
  intros RT env up req_body d chunks Hv Hc Hs.
  rewrite (handler_accepted env up req_body Hv), Hc. cbv zeta.
  now rewrite Hs, drain_pending.
Qed.

Lemma unending_stream_gets_no_answer_witness :
  response (handler (RT := Reference.runtime) env_with_key
              (streaming [Data line_Hel; Data line_lo])
              (chat_body (JString "deepseek_chat") (JString "hi")))
  = None.
Proof.
  exact (f_equal response
           (unending_stream_gets_no_answer Reference.runtime env_with_key
              (streaming [Data line_Hel; Data line_lo])
              (chat_body (JString "deepseek_chat") (JString "hi"))
              (JObject []) [line_Hel; line_lo] eq_refl eq_refl eq_refl)).
Defined.

(** X17: end to end: a request that passes validation, a context reset
    that succeeds and a stream of whole lines that ends give the answer 200
    whose text is the deltas of the lines in order, after exactly the two
    upstream calls. *)
Theorem valid_request_is_answered_with_the_deltas :
  forall (RT : Runtime) (env : Env) (up : Upstream) (req_body d : JSValue)
         (chunks : list Lines),
    passes_validation env req_body = true ->
    post_json up (clear_request env) = Normal d ->
    forallb whole chunks = true ->
    post_stream up (completions_request env (request_message req_body)
                      (body_model req_body))
    = Normal (stream_of chunks) ->
    handler env up req_body
    = mkRun (Some (respond_ok
                     (concat_all (map line_delta (flat_map chunk_lines chunks)))))
        [clear_request env;
         completions_request env (request_message req_body) (body_model req_body)].
Proof.
  intros RT env up req_body d chunks Hv Hc Hw Hs.
  rewrite (handler_accepted env up req_body Hv), Hc. cbv zeta.
  now rewrite Hs, (drain_whole_chunks chunks Hw).
Qed.

Lemma valid_request_is_answered_with_the_deltas_witness :
  response (handler (RT := Reference.runtime) env_with_key
              (streaming (stream_of [mkLines [(line_Hel, BreakLF); (EmptyString, BreakLF)]
                                             EmptyString;
                                     mkLines [(line_lo, BreakCRLF)] EmptyString]))
              (chat_body (JString "deepseek_chat") (JString "hi")))
  = Some (respond_ok "Hello").
Proof.
  exact (f_equal response
           (valid_request_is_answered_with_the_deltas Reference.runtime env_with_key
              (streaming (stream_of [mkLines [(line_Hel, BreakLF); (EmptyString, BreakLF)]
                                             EmptyString;
                                     mkLines [(line_lo, BreakCRLF)] EmptyString]))
              (chat_body (JString "deepseek_chat") (JString "hi"))
              (JObject [])
              [mkLines [(line_Hel, BreakLF); (EmptyString, BreakLF)] EmptyString;
               mkLines [(line_lo, BreakCRLF)] EmptyString]
              eq_refl eq_refl eq_refl eq_refl)).
Defined.

(** X18: an upstream body that is not an event stream is not an error: when
    no line of any chunk has the prefix [data: ] and the stream ends, a
    valid request is answered 200 with the empty text. *)
Theorem body_without_data_lines_gives_empty_200 :
  forall (RT : Runtime) (env : Env) (up : Upstream) (req_body d : JSValue)
         (chunks : list string) (rest : list StreamEvent),
    passes_validation env req_body = true ->
    post_json up (clear_request env) = Normal d ->
    post_stream up (completions_request env (request_message req_body)
                      (body_model req_body))
    = Normal (map Data chunks ++ End :: rest)%list ->
    (forall chunk line, In chunk chunks -> In line (split_lines chunk) ->
                        data_payload line = None) ->
    response (handler env up req_body) = Some (respond_ok EmptyString).
Proof.
  intros RT env up req_body d chunks rest Hv Hc Hs Hnone.
  rewrite (handler_accepted env up req_body Hv), Hc. cbv zeta. cbn [response].
  rewrite Hs, drain_end. do 3 f_equal.
  apply concat_all_empty. intros x Hx.
  apply in_map_iff in Hx as (chunk & <- & Hin).
  unfold chunk_delta. apply concat_all_empty. intros y Hy.
  apply in_map_iff in Hy as (line & <- & Hl).
  unfold line_delta. now rewrite (Hnone chunk line Hin Hl).
Qed.

Lemma body_without_data_lines_gives_empty_200_witness :
  response (handler (RT := Reference.runtime) env_with_key
              (streaming [Data (wire "{'code':40003,'msg':'Authorization" ++ NL);
                          Data (wire " Failed','data':null}"); End])
              (chat_body (JString "deepseek_chat") (JString "hi")))
  = Some (respond_ok EmptyString).
Proof.
  apply (body_without_data_lines_gives_empty_200 Reference.runtime env_with_key
           (streaming [Data (wire "{'code':40003,'msg':'Authorization" ++ NL);
                       Data (wire " Failed','data':null}"); End])
           (chat_body (JString "deepseek_chat") (JString "hi"))
           (JObject [])
           [wire "{'code':40003,'msg':'Authorization" ++ NL;
            wire " Failed','data':null}"] []
           eq_refl eq_refl eq_refl).
  intros chunk line [<-|[<-|[]]].
  - intros [<-|[<-|[]]]; reflexivity.
  - intros [<-|[]]; reflexivity.
Defined.

(** X19: the accumulator changes only on a line that has the prefix
    [data: ], whose payload is JSON, and whose [choices[0].delta.content]
    is truthy; every other line leaves it as it was. *)
Theorem only_truthy_content_is_added :
  forall (RT : Runtime) (acc line : string),
    line_step acc line <> acc ->
    exists payload event,
      data_payload line = Some payload
      /\ JSON_parse payload = Normal event
      /\ ToBoolean (delta_content event) = true.
Proof.
  intros RT acc line H. rewrite line_step_delta in H. unfold line_delta in H.
  destruct (data_payload line) as [payload|] eqn:Hd.
  2:{ now rewrite append_empty_r in H. }
  destruct (JSON_parse payload) as [event|e] eqn:Hp.
  2:{ now rewrite append_empty_r in H. }
  exists payload, event. split; [reflexivity | split; [exact Hp|]].
  destruct (ToBoolean (delta_content event)) eqn:Ht; [reflexivity|].
  rewrite (content_text_falsy _ Ht), append_empty_r in H. congruence.
Qed.

Lemma only_truthy_content_is_added_witness :
  exists payload event,
    data_payload line_Hel = Some payload
    /\ JSON_parse (Runtime := Reference.runtime) payload = Normal event
    /\ ToBoolean (RT := Reference.runtime)
         (delta_content (RT := Reference.runtime) event) = true.
Proof.
  apply (only_truthy_content_is_added Reference.runtime EmptyString line_Hel).
  intro H. cbv in H. discriminate H.
Defined.
